(** * RMIT policy scraper: a shallow embedding of [scraper.py]

    The development follows the layout of the Python module: text
    normalisation ([clean_text]), clause extraction from an ordered list
    ([extract_clauses_from_list]), extraction of one policy document
    ([scrape_policy_document]), persistence ([save_policy_json]) and the
    driver ([scrape_all_policies]).

    Python strings are sequences of Unicode code points and are modelled
    as lists of integers; the parsed page is a tree of tags and strings;
    the network, the clock and the disk are explicit inputs. *)

From Stdlib Require Import String Ascii DecimalString.
From Stdlib Require Import ZArith Bool Lia Arith List.
Import ListNotations.

Set Warnings "-register-all".

(** ** Python strings *)

Module PyStr.

Definition pystr := list Z.

(** Literals of the source are written [py "..."]; they are all ASCII. *)
Definition py (s : string) : pystr :=
  map (fun a => Z.of_nat (nat_of_ascii a)) (list_ascii_of_string s).

Definition pystr_eqb (a b : pystr) : bool :=
  if list_eq_dec Z.eq_dec a b then true else false.

Definition in_table (t : list (Z * Z)) (c : Z) : bool :=
  existsb (fun r => (fst r <=? c)%Z && (c <=? snd r)%Z) t.

(** Character classes of CPython 3.11 (Unicode 14.0), as inclusive
    ranges of code points.  [str.isspace], [str.strip] and the regular
    expression class [\s] share the first table, [\d] is the second,
    [\w] is the third one together with the underscore. *)
Definition whitespace_table : list (Z * Z) :=
  [
    (9, 13); (28, 32); (133, 133); (160, 160); (5760, 5760); (8192, 8202);
    (8232, 8233); (8239, 8239); (8287, 8287); (12288, 12288)
  ]%Z.
Definition decimal_table : list (Z * Z) :=
  [
    (48, 57); (1632, 1641); (1776, 1785); (1984, 1993); (2406, 2415); (2534, 2543);
    (2662, 2671); (2790, 2799); (2918, 2927); (3046, 3055); (3174, 3183); (3302, 3311);
    (3430, 3439); (3558, 3567); (3664, 3673); (3792, 3801); (3872, 3881); (4160, 4169);
    (4240, 4249); (6112, 6121); (6160, 6169); (6470, 6479); (6608, 6617); (6784, 6793);
    (6800, 6809); (6992, 7001); (7088, 7097); (7232, 7241); (7248, 7257); (42528, 42537);
    (43216, 43225); (43264, 43273); (43472, 43481); (43504, 43513); (43600, 43609); (44016, 44025);
    (65296, 65305); (66720, 66729); (68912, 68921); (69734, 69743); (69872, 69881); (69942, 69951);
    (70096, 70105); (70384, 70393); (70736, 70745); (70864, 70873); (71248, 71257); (71360, 71369);
    (71472, 71481); (71904, 71913); (72016, 72025); (72784, 72793); (73040, 73049); (73120, 73129);
    (92768, 92777); (92864, 92873); (93008, 93017); (120782, 120831); (123200, 123209); (123632, 123641);
    (125264, 125273); (130032, 130041)
  ]%Z.
Definition alnum_table : list (Z * Z) :=
  [
    (48, 57); (65, 90); (97, 122); (170, 170); (178, 179); (181, 181);
    (185, 186); (188, 190); (192, 214); (216, 246); (248, 705); (710, 721);
    (736, 740); (748, 748); (750, 750); (880, 884); (886, 887); (890, 893);
    (895, 895); (902, 902); (904, 906); (908, 908); (910, 929); (931, 1013);
    (1015, 1153); (1162, 1327); (1329, 1366); (1369, 1369); (1376, 1416); (1488, 1514);
    (1519, 1522); (1568, 1610); (1632, 1641); (1646, 1647); (1649, 1747); (1749, 1749);
    (1765, 1766); (1774, 1788); (1791, 1791); (1808, 1808); (1810, 1839); (1869, 1957);
    (1969, 1969); (1984, 2026); (2036, 2037); (2042, 2042); (2048, 2069); (2074, 2074);
    (2084, 2084); (2088, 2088); (2112, 2136); (2144, 2154); (2160, 2183); (2185, 2190);
    (2208, 2249); (2308, 2361); (2365, 2365); (2384, 2384); (2392, 2401); (2406, 2415);
    (2417, 2432); (2437, 2444); (2447, 2448); (2451, 2472); (2474, 2480); (2482, 2482);
    (2486, 2489); (2493, 2493); (2510, 2510); (2524, 2525); (2527, 2529); (2534, 2545);
    (2548, 2553); (2556, 2556); (2565, 2570); (2575, 2576); (2579, 2600); (2602, 2608);
    (2610, 2611); (2613, 2614); (2616, 2617); (2649, 2652); (2654, 2654); (2662, 2671);
    (2674, 2676); (2693, 2701); (2703, 2705); (2707, 2728); (2730, 2736); (2738, 2739);
    (2741, 2745); (2749, 2749); (2768, 2768); (2784, 2785); (2790, 2799); (2809, 2809);
    (2821, 2828); (2831, 2832); (2835, 2856); (2858, 2864); (2866, 2867); (2869, 2873);
    (2877, 2877); (2908, 2909); (2911, 2913); (2918, 2927); (2929, 2935); (2947, 2947);
    (2949, 2954); (2958, 2960); (2962, 2965); (2969, 2970); (2972, 2972); (2974, 2975);
    (2979, 2980); (2984, 2986); (2990, 3001); (3024, 3024); (3046, 3058); (3077, 3084);
    (3086, 3088); (3090, 3112); (3114, 3129); (3133, 3133); (3160, 3162); (3165, 3165);
    (3168, 3169); (3174, 3183); (3192, 3198); (3200, 3200); (3205, 3212); (3214, 3216);
    (3218, 3240); (3242, 3251); (3253, 3257); (3261, 3261); (3293, 3294); (3296, 3297);
    (3302, 3311); (3313, 3314); (3332, 3340); (3342, 3344); (3346, 3386); (3389, 3389);
    (3406, 3406); (3412, 3414); (3416, 3425); (3430, 3448); (3450, 3455); (3461, 3478);
    (3482, 3505); (3507, 3515); (3517, 3517); (3520, 3526); (3558, 3567); (3585, 3632);
    (3634, 3635); (3648, 3654); (3664, 3673); (3713, 3714); (3716, 3716); (3718, 3722);
    (3724, 3747); (3749, 3749); (3751, 3760); (3762, 3763); (3773, 3773); (3776, 3780);
    (3782, 3782); (3792, 3801); (3804, 3807); (3840, 3840); (3872, 3891); (3904, 3911);
    (3913, 3948); (3976, 3980); (4096, 4138); (4159, 4169); (4176, 4181); (4186, 4189);
    (4193, 4193); (4197, 4198); (4206, 4208); (4213, 4225); (4238, 4238); (4240, 4249);
    (4256, 4293); (4295, 4295); (4301, 4301); (4304, 4346); (4348, 4680); (4682, 4685);
    (4688, 4694); (4696, 4696); (4698, 4701); (4704, 4744); (4746, 4749); (4752, 4784);
    (4786, 4789); (4792, 4798); (4800, 4800); (4802, 4805); (4808, 4822); (4824, 4880);
    (4882, 4885); (4888, 4954); (4969, 4988); (4992, 5007); (5024, 5109); (5112, 5117);
    (5121, 5740); (5743, 5759); (5761, 5786); (5792, 5866); (5870, 5880); (5888, 5905);
    (5919, 5937); (5952, 5969); (5984, 5996); (5998, 6000); (6016, 6067); (6103, 6103);
    (6108, 6108); (6112, 6121); (6128, 6137); (6160, 6169); (6176, 6264); (6272, 6276);
    (6279, 6312); (6314, 6314); (6320, 6389); (6400, 6430); (6470, 6509); (6512, 6516);
    (6528, 6571); (6576, 6601); (6608, 6618); (6656, 6678); (6688, 6740); (6784, 6793);
    (6800, 6809); (6823, 6823); (6917, 6963); (6981, 6988); (6992, 7001); (7043, 7072);
    (7086, 7141); (7168, 7203); (7232, 7241); (7245, 7293); (7296, 7304); (7312, 7354);
    (7357, 7359); (7401, 7404); (7406, 7411); (7413, 7414); (7418, 7418); (7424, 7615);
    (7680, 7957); (7960, 7965); (7968, 8005); (8008, 8013); (8016, 8023); (8025, 8025);
    (8027, 8027); (8029, 8029); (8031, 8061); (8064, 8116); (8118, 8124); (8126, 8126);
    (8130, 8132); (8134, 8140); (8144, 8147); (8150, 8155); (8160, 8172); (8178, 8180);
    (8182, 8188); (8304, 8305); (8308, 8313); (8319, 8329); (8336, 8348); (8450, 8450);
    (8455, 8455); (8458, 8467); (8469, 8469); (8473, 8477); (8484, 8484); (8486, 8486);
    (8488, 8488); (8490, 8493); (8495, 8505); (8508, 8511); (8517, 8521); (8526, 8526);
    (8528, 8585); (9312, 9371); (9450, 9471); (10102, 10131); (11264, 11492); (11499, 11502);
    (11506, 11507); (11517, 11517); (11520, 11557); (11559, 11559); (11565, 11565); (11568, 11623);
    (11631, 11631); (11648, 11670); (11680, 11686); (11688, 11694); (11696, 11702); (11704, 11710);
    (11712, 11718); (11720, 11726); (11728, 11734); (11736, 11742); (11823, 11823); (12293, 12295);
    (12321, 12329); (12337, 12341); (12344, 12348); (12353, 12438); (12445, 12447); (12449, 12538);
    (12540, 12543); (12549, 12591); (12593, 12686); (12690, 12693); (12704, 12735); (12784, 12799);
    (12832, 12841); (12872, 12879); (12881, 12895); (12928, 12937); (12977, 12991); (13312, 19903);
    (19968, 42124); (42192, 42237); (42240, 42508); (42512, 42539); (42560, 42606); (42623, 42653);
    (42656, 42735); (42775, 42783); (42786, 42888); (42891, 42954); (42960, 42961); (42963, 42963);
    (42965, 42969); (42994, 43009); (43011, 43013); (43015, 43018); (43020, 43042); (43056, 43061);
    (43072, 43123); (43138, 43187); (43216, 43225); (43250, 43255); (43259, 43259); (43261, 43262);
    (43264, 43301); (43312, 43334); (43360, 43388); (43396, 43442); (43471, 43481); (43488, 43492);
    (43494, 43518); (43520, 43560); (43584, 43586); (43588, 43595); (43600, 43609); (43616, 43638);
    (43642, 43642); (43646, 43695); (43697, 43697); (43701, 43702); (43705, 43709); (43712, 43712);
    (43714, 43714); (43739, 43741); (43744, 43754); (43762, 43764); (43777, 43782); (43785, 43790);
    (43793, 43798); (43808, 43814); (43816, 43822); (43824, 43866); (43868, 43881); (43888, 44002);
    (44016, 44025); (44032, 55203); (55216, 55238); (55243, 55291); (63744, 64109); (64112, 64217);
    (64256, 64262); (64275, 64279); (64285, 64285); (64287, 64296); (64298, 64310); (64312, 64316);
    (64318, 64318); (64320, 64321); (64323, 64324); (64326, 64433); (64467, 64829); (64848, 64911);
    (64914, 64967); (65008, 65019); (65136, 65140); (65142, 65276); (65296, 65305); (65313, 65338);
    (65345, 65370); (65382, 65470); (65474, 65479); (65482, 65487); (65490, 65495); (65498, 65500);
    (65536, 65547); (65549, 65574); (65576, 65594); (65596, 65597); (65599, 65613); (65616, 65629);
    (65664, 65786); (65799, 65843); (65856, 65912); (65930, 65931); (66176, 66204); (66208, 66256);
    (66273, 66299); (66304, 66339); (66349, 66378); (66384, 66421); (66432, 66461); (66464, 66499);
    (66504, 66511); (66513, 66517); (66560, 66717); (66720, 66729); (66736, 66771); (66776, 66811);
    (66816, 66855); (66864, 66915); (66928, 66938); (66940, 66954); (66956, 66962); (66964, 66965);
    (66967, 66977); (66979, 66993); (66995, 67001); (67003, 67004); (67072, 67382); (67392, 67413);
    (67424, 67431); (67456, 67461); (67463, 67504); (67506, 67514); (67584, 67589); (67592, 67592);
    (67594, 67637); (67639, 67640); (67644, 67644); (67647, 67669); (67672, 67702); (67705, 67742);
    (67751, 67759); (67808, 67826); (67828, 67829); (67835, 67867); (67872, 67897); (67968, 68023);
    (68028, 68047); (68050, 68096); (68112, 68115); (68117, 68119); (68121, 68149); (68160, 68168);
    (68192, 68222); (68224, 68255); (68288, 68295); (68297, 68324); (68331, 68335); (68352, 68405);
    (68416, 68437); (68440, 68466); (68472, 68497); (68521, 68527); (68608, 68680); (68736, 68786);
    (68800, 68850); (68858, 68899); (68912, 68921); (69216, 69246); (69248, 69289); (69296, 69297);
    (69376, 69415); (69424, 69445); (69457, 69460); (69488, 69505); (69552, 69579); (69600, 69622);
    (69635, 69687); (69714, 69743); (69745, 69746); (69749, 69749); (69763, 69807); (69840, 69864);
    (69872, 69881); (69891, 69926); (69942, 69951); (69956, 69956); (69959, 69959); (69968, 70002);
    (70006, 70006); (70019, 70066); (70081, 70084); (70096, 70106); (70108, 70108); (70113, 70132);
    (70144, 70161); (70163, 70187); (70272, 70278); (70280, 70280); (70282, 70285); (70287, 70301);
    (70303, 70312); (70320, 70366); (70384, 70393); (70405, 70412); (70415, 70416); (70419, 70440);
    (70442, 70448); (70450, 70451); (70453, 70457); (70461, 70461); (70480, 70480); (70493, 70497);
    (70656, 70708); (70727, 70730); (70736, 70745); (70751, 70753); (70784, 70831); (70852, 70853);
    (70855, 70855); (70864, 70873); (71040, 71086); (71128, 71131); (71168, 71215); (71236, 71236);
    (71248, 71257); (71296, 71338); (71352, 71352); (71360, 71369); (71424, 71450); (71472, 71483);
    (71488, 71494); (71680, 71723); (71840, 71922); (71935, 71942); (71945, 71945); (71948, 71955);
    (71957, 71958); (71960, 71983); (71999, 71999); (72001, 72001); (72016, 72025); (72096, 72103);
    (72106, 72144); (72161, 72161); (72163, 72163); (72192, 72192); (72203, 72242); (72250, 72250);
    (72272, 72272); (72284, 72329); (72349, 72349); (72368, 72440); (72704, 72712); (72714, 72750);
    (72768, 72768); (72784, 72812); (72818, 72847); (72960, 72966); (72968, 72969); (72971, 73008);
    (73030, 73030); (73040, 73049); (73056, 73061); (73063, 73064); (73066, 73097); (73112, 73112);
    (73120, 73129); (73440, 73458); (73648, 73648); (73664, 73684); (73728, 74649); (74752, 74862);
    (74880, 75075); (77712, 77808); (77824, 78894); (82944, 83526); (92160, 92728); (92736, 92766);
    (92768, 92777); (92784, 92862); (92864, 92873); (92880, 92909); (92928, 92975); (92992, 92995);
    (93008, 93017); (93019, 93025); (93027, 93047); (93053, 93071); (93760, 93846); (93952, 94026);
    (94032, 94032); (94099, 94111); (94176, 94177); (94179, 94179); (94208, 100343); (100352, 101589);
    (101632, 101640); (110576, 110579); (110581, 110587); (110589, 110590); (110592, 110882); (110928, 110930);
    (110948, 110951); (110960, 111355); (113664, 113770); (113776, 113788); (113792, 113800); (113808, 113817);
    (119520, 119539); (119648, 119672); (119808, 119892); (119894, 119964); (119966, 119967); (119970, 119970);
    (119973, 119974); (119977, 119980); (119982, 119993); (119995, 119995); (119997, 120003); (120005, 120069);
    (120071, 120074); (120077, 120084); (120086, 120092); (120094, 120121); (120123, 120126); (120128, 120132);
    (120134, 120134); (120138, 120144); (120146, 120485); (120488, 120512); (120514, 120538); (120540, 120570);
    (120572, 120596); (120598, 120628); (120630, 120654); (120656, 120686); (120688, 120712); (120714, 120744);
    (120746, 120770); (120772, 120779); (120782, 120831); (122624, 122654); (123136, 123180); (123191, 123197);
    (123200, 123209); (123214, 123214); (123536, 123565); (123584, 123627); (123632, 123641); (124896, 124902);
    (124904, 124907); (124909, 124910); (124912, 124926); (124928, 125124); (125127, 125135); (125184, 125251);
    (125259, 125259); (125264, 125273); (126065, 126123); (126125, 126127); (126129, 126132); (126209, 126253);
    (126255, 126269); (126464, 126467); (126469, 126495); (126497, 126498); (126500, 126500); (126503, 126503);
    (126505, 126514); (126516, 126519); (126521, 126521); (126523, 126523); (126530, 126530); (126535, 126535);
    (126537, 126537); (126539, 126539); (126541, 126543); (126545, 126546); (126548, 126548); (126551, 126551);
    (126553, 126553); (126555, 126555); (126557, 126557); (126559, 126559); (126561, 126562); (126564, 126564);
    (126567, 126570); (126572, 126578); (126580, 126583); (126585, 126588); (126590, 126590); (126592, 126601);
    (126603, 126619); (126625, 126627); (126629, 126633); (126635, 126651); (127232, 127244); (130032, 130041);
    (131072, 173791); (173824, 177976); (177984, 178205); (178208, 183969); (183984, 191456); (194560, 195101);
    (196608, 201546)
  ]%Z.

Definition is_space (c : Z) : bool := in_table whitespace_table c.
Definition is_decimal (c : Z) : bool := in_table decimal_table c.
Definition is_word (c : Z) : bool := in_table alnum_table c || (c =? 95)%Z.

Definition NBSP : Z := 160.   (* U+00A0, no-break space *)
Definition ZWSP : Z := 8203.  (* U+200B, zero width space *)
Definition SPACE : Z := 32.
Definition HYPHEN : Z := 45.
Definition SLASH : Z := 47.
Definition UNDERSCORE : Z := 95.

Fixpoint dropwhile (p : Z -> bool) (s : pystr) : pystr :=
  match s with
  | [] => []
  | c :: t => if p c then dropwhile p t else s
  end.

(** [str.strip()] with no argument. *)
Definition lstrip (s : pystr) : pystr := dropwhile is_space s.
Definition rstrip (s : pystr) : pystr := rev (dropwhile is_space (rev s)).
Definition strip (s : pystr) : pystr := rstrip (lstrip s).

(** [s.replace(old, new)] for a one-character [old]. *)
Definition replace1 (old : Z) (new : pystr) (s : pystr) : pystr :=
  flat_map (fun c => if (c =? old)%Z then new else [c]) s.

Fixpoint startswith (s prefix : pystr) : bool :=
  match prefix, s with
  | [], _ => true
  | p :: ps, c :: t => (c =? p)%Z && startswith t ps
  | _ :: _, [] => false
  end.

(** [needle in hay]. *)
Fixpoint contains (hay needle : pystr) : bool :=
  startswith hay needle ||
  match hay with
  | [] => false
  | _ :: t => contains t needle
  end.

(** [str.lower()].  The source only searches the lowered text for the
    ASCII keywords of the date scan.  Code points whose lowercase holds
    an ASCII character are mapped as CPython maps them: 'A'..'Z', the
    Kelvin sign U+212A (to 'k') and U+0130 (to 'i' followed by U+0307).
    Every other code point lowers to non-ASCII text and is left in
    place, which those searches cannot observe. *)
Definition lower_char (c : Z) : pystr :=
  if (65 <=? c)%Z && (c <=? 90)%Z then [(c + 32)%Z]
  else if (c =? 8490)%Z then [107%Z]
  else if (c =? 304)%Z then [105%Z; 775%Z]
  else [c].

Definition lower (s : pystr) : pystr := flat_map lower_char s.

(** [str(n)] for a non-negative integer. *)
Definition str (n : nat) : pystr := py (NilEmpty.string_of_uint (Nat.to_uint n)).

(** Truth value of a string: [if text], [not text], [a or b]. *)
Definition truthy (s : pystr) : bool :=
  match s with [] => false | _ :: _ => true end.

End PyStr.

(** ** The regular expressions of the source *)

Module Re.
Import PyStr.

(** [re.sub(C+, repl, s)] for a character class [C]: every maximal run
    of characters of the class is replaced by [repl].  [in_run] records
    that the previous character already belonged to the current match. *)
Fixpoint sub_plus_from (cls : Z -> bool) (repl : pystr) (in_run : bool) (s : pystr) : pystr :=
  match s with
  | [] => []
  | c :: t =>
      if cls c then
        if in_run then sub_plus_from cls repl true t
        else repl ++ sub_plus_from cls repl true t
      else c :: sub_plus_from cls repl false t
  end.

Definition sub_plus (cls : Z -> bool) (repl s : pystr) : pystr :=
  sub_plus_from cls repl false s.

(** [re.sub(C, repl, s)] for a character class [C] without repetition. *)
Definition sub_class (cls : Z -> bool) (repl s : pystr) : pystr :=
  flat_map (fun c => if cls c then repl else [c]) s.

(** One character of a class at the head of the subject; the result is
    the rest of the subject. *)
Definition one (cls : Z -> bool) (s : pystr) : option pystr :=
  match s with
  | c :: t => if cls c then Some t else None
  | [] => None
  end.

Definition orelse {A} (a b : option A) : option A :=
  match a with Some _ => a | None => b end.

(** [C{1,2}] followed by the continuation [k]: greedy, two characters
    are tried first and one on backtracking. *)
Definition one_or_two (cls : Z -> bool) (k : pystr -> option pystr) (s : pystr) : option pystr :=
  match one cls s with
  | None => None
  | Some t1 =>
      orelse (match one cls t1 with Some t2 => k t2 | None => None end) (k t1)
  end.

Definition then_one (cls : Z -> bool) (k : pystr -> option pystr) (s : pystr) : option pystr :=
  match one cls s with
  | None => None
  | Some t => k t
  end.

Definition is_date_sep (c : Z) : bool := (c =? HYPHEN)%Z || (c =? SLASH)%Z.

(** [date_pattern = r'\d{1,2}[-/]\d{1,2}[-/]\d{4}'] anchored at the
    head of the subject; the result is what follows the match. *)
Definition match_date_here (s : pystr) : option pystr :=
  one_or_two is_decimal
    (then_one is_date_sep
      (one_or_two is_decimal
        (then_one is_date_sep
          (then_one is_decimal (then_one is_decimal
            (then_one is_decimal (then_one is_decimal Some))))))) s.

(** [re.search(date_pattern, s)] followed by [match.group()]: the
    leftmost match, [None] when there is none. *)
Fixpoint search_date (s : pystr) : option pystr :=
  match match_date_here s with
  | Some rest => Some (firstn (length s - length rest) s)
  | None =>
      match s with
      | [] => None
      | _ :: t => search_date t
      end
  end.

End Re.

(** ** The parsed page

    The tree built by the HTML parser, with the operations of the
    parsing library that the source calls.  It holds tags and ordinary
    strings; comments and the text of script and style elements, which
    [get_text] and [stripped_strings] pass over, are not part of it. *)

Module Soup.
Import PyStr.

(** An attribute value is a string, or a list of tokens for the
    multi-valued attributes such as [class]. *)
Inductive attr_value :=
| AttrStr (s : pystr)
| AttrList (l : list pystr).

Inductive node :=
| NavigableString (s : pystr)
| Tag (name : pystr) (attrs : list (pystr * attr_value)) (contents : list node).

Definition has_name (names : list pystr) (n : node) : bool :=
  match n with
  | Tag name _ _ => existsb (pystr_eqb name) names
  | NavigableString _ => false
  end.

Definition is_tag (n : node) : bool :=
  match n with
  | Tag _ _ _ => true
  | NavigableString _ => false
  end.

Definition contents_of (n : node) : list node :=
  match n with
  | Tag _ _ cs => cs
  | NavigableString _ => []
  end.

(** [tag.descendants]: document order, the tag itself excluded. *)
Fixpoint descendants (n : node) : list node :=
  match n with
  | NavigableString _ => []
  | Tag _ _ cs => flat_map (fun c => c :: descendants c) cs
  end.

(** [tag.get_text()]: the strings below the tag, concatenated. *)
Fixpoint get_text (n : node) : pystr :=
  match n with
  | NavigableString s => s
  | Tag _ _ cs => concat (map get_text cs)
  end.

(** [tag.stripped_strings]: every string below the tag, stripped, the
    empty ones left out. *)
Definition stripped_strings (n : node) : list pystr :=
  flat_map
    (fun d =>
       match d with
       | NavigableString s => if truthy (strip s) then [strip s] else []
       | Tag _ _ _ => []
       end)
    (descendants n).

(** [tag.find_all(names)], [tag.find_all(name, recursive=False)] and
    [tag.find(names)]. *)
Definition find_all (names : list pystr) (n : node) : list node :=
  filter (has_name names) (descendants n).

Definition find_all_children (names : list pystr) (n : node) : list node :=
  filter (has_name names) (contents_of n).

Definition find (names : list pystr) (n : node) : option node :=
  List.find (has_name names) (descendants n).

Fixpoint get_attr (key : pystr) (attrs : list (pystr * attr_value)) : option attr_value :=
  match attrs with
  | [] => None
  | (k, v) :: rest => if pystr_eqb k key then Some v else get_attr key rest
  end.

Fixpoint join (sep : pystr) (l : list pystr) : pystr :=
  match l with
  | [] => []
  | [x] => x
  | x :: rest => x ++ sep ++ join sep rest
  end.

(** The [class_=value] filter: one of the tokens is [value], or the
    whole attribute is. *)
Definition has_class (value : pystr) (n : node) : bool :=
  match n with
  | Tag _ attrs _ =>
      match get_attr (py "class") attrs with
      | Some (AttrStr s) => pystr_eqb s value
      | Some (AttrList l) =>
          existsb (fun t => pystr_eqb t value) l || pystr_eqb (join (py " ") l) value
      | None => false
      end
  | NavigableString _ => false
  end.

Definition find_with_class (name value : pystr) (n : node) : option node :=
  List.find (fun d => has_name [name] d && has_class value d) (descendants n).

(** Equality of page elements ([==], [!=]) is structural: two tags
    are equal when they have the same name, the same attribute
    dictionary and pairwise equal contents. *)
Definition attr_value_eqb (a b : attr_value) : bool :=
  match a, b with
  | AttrStr s, AttrStr t => pystr_eqb s t
  | AttrList l, AttrList m =>
      if list_eq_dec (list_eq_dec Z.eq_dec) l m then true else false
  | _, _ => false
  end.

Definition attrs_le (a b : list (pystr * attr_value)) : bool :=
  forallb
    (fun kv =>
       match get_attr (fst kv) a, get_attr (fst kv) b with
       | Some v, Some w => attr_value_eqb v w
       | _, _ => false
       end) a.

Definition attrs_eqb (a b : list (pystr * attr_value)) : bool :=
  attrs_le a b && attrs_le b a.

Fixpoint node_eqb (a b : node) : bool :=
  match a, b with
  | NavigableString s, NavigableString t => pystr_eqb s t
  | Tag n1 a1 c1, Tag n2 a2 c2 =>
      pystr_eqb n1 n2 && attrs_eqb a1 a2 &&
      (fix all2 (l1 l2 : list node) : bool :=
         match l1, l2 with
         | [], [] => true
         | x :: r1, y :: r2 => node_eqb x y && all2 r1 r2
         | _, _ => false
         end) c1 c2
  | _, _ => false
  end.

Definition HEADINGS : list pystr := [py "h2"; py "h3"].

(** [area.find_all(['h2', 'h3'])], each heading paired with its
    [heading.find_next_siblings()]: the tags that follow it under the
    same parent. *)
Fixpoint headings_with_siblings (area : node) : list (node * list node) :=
  match area with
  | NavigableString _ => []
  | Tag _ _ cs =>
      (fix scan (l : list node) : list (node * list node) :=
         match l with
         | [] => []
         | c :: rest =>
             (if has_name HEADINGS c then [(c, filter is_tag rest)] else [])
               ++ headings_with_siblings c ++ scan rest
         end) cs
  end.

End Soup.

(** ** The scraper *)

Module Scraper.
Import PyStr Re Soup.

(** *** Data model of the JSON output *)

Record Clause := {
  clause_number : pystr;
  text : pystr;
  subclauses : list pystr
}.

Record PolicySection := {
  section_title : pystr;
  clauses : list Clause
}.

Record Part := {
  part_title : pystr;
  sections : list PolicySection
}.

Record Metadata := {
  title : pystr;
  approval_date : pystr;
  review_date : pystr;
  source_path : pystr;
  scraped_date : pystr
}.

Record PolicyDocument := {
  metadata : Metadata;
  structure : list Part;
  qa_index : list pystr
}.

(** *** [clean_text] *)

Definition clean_text (text : pystr) : pystr :=
  if negb (truthy text) then []
  else
    let text := sub_plus is_space [SPACE] text in
    let text := strip text in
    let text := replace1 NBSP [SPACE] text in
    let text := replace1 ZWSP [] text in
    text.

(** *** [extract_clauses_from_list] *)

(** The inner loop over [nested_list.find_all('li')]. *)
Fixpoint collect_subclauses (items : list node) (subclauses : list pystr) : list pystr :=
  match items with
  | [] => subclauses
  | sub_li :: rest =>
      let sub_text := clean_text (get_text sub_li) in
      if 20 <=? length sub_text
      then collect_subclauses rest (subclauses ++ [sub_text])
      else collect_subclauses rest subclauses
  end.

(** The loop over [enumerate(ol_element.find_all('li', recursive=False))];
    [i] is the index of the head of [items]. *)
Fixpoint extract_loop (i : nat) (items : list node) (clauses : list Clause) : list Clause :=
  match items with
  | [] => clauses
  | li :: rest =>
      let text := clean_text (get_text li) in
      if length text <? 20 then extract_loop (S i) rest clauses
      else
        let subclauses :=
          match find [py "ol"; py "ul"] li with
          | Some nested_list =>
              collect_subclauses (find_all [py "li"] nested_list) []
          | None => []
          end in
        extract_loop (S i) rest
          (clauses ++ [{| clause_number := str (i + 1);
                          text := text;
                          subclauses := subclauses |}])
  end.

Definition extract_clauses_from_list (ol_element : node) : list Clause :=
  extract_loop 0 (find_all_children [py "li"] ol_element) [].

(** *** [scrape_policy_document] *)

(** The body of the loop over [soup.stripped_strings]; the state is the
    pair [(approval_date, review_date)]. *)
Definition scan_fragment (dates : pystr * pystr) (text : pystr) : pystr * pystr :=
  let (approval_date, review_date) := dates in
  let approval_date :=
    if contains (lower text) (py "approval date") || contains (lower text) (py "approved")
    then match search_date text with
         | Some group => group
         | None => approval_date
         end
    else approval_date in
  let review_date :=
    if contains (lower text) (py "review date") || contains (lower text) (py "reviewed")
    then match search_date text with
         | Some group => group
         | None => review_date
         end
    else review_date in
  (approval_date, review_date).

Definition scan_dates (fragments : list pystr) : pystr * pystr :=
  fold_left scan_fragment fragments ([], []).

(** The loop over [heading.find_next_siblings()]. *)
Fixpoint walk_siblings (heading : node) (siblings : list node) (clauses : list Clause) : list Clause :=
  match siblings with
  | [] => clauses
  | sibling :: rest =>
      if has_name HEADINGS sibling && negb (node_eqb sibling heading) then clauses
      else if has_name [py "ol"] sibling then
        walk_siblings heading rest (clauses ++ extract_clauses_from_list sibling)
      else if has_name [py "p"] sibling then
        let text := clean_text (get_text sibling) in
        if 20 <=? length text then
          walk_siblings heading rest
            (clauses ++ [{| clause_number := str (length clauses + 1);
                            text := text;
                            subclauses := [] |}])
        else walk_siblings heading rest clauses
      else walk_siblings heading rest clauses
  end.

(** The loop over [content_area.find_all(['h2', 'h3'])]. *)
Fixpoint collect_sections (headings : list (node * list node)) (sections : list PolicySection) : list PolicySection :=
  match headings with
  | [] => sections
  | (heading, siblings) :: rest =>
      let section_title := clean_text (get_text heading) in
      if negb (truthy section_title) || (length section_title <? 3)
      then collect_sections rest sections
      else
        let clauses := walk_siblings heading siblings [] in
        match clauses with
        | _ :: _ =>
            collect_sections rest
              (sections ++ [{| section_title := section_title; clauses := clauses |}])
        | [] => collect_sections rest sections
        end
  end.

(** [soup.find('div', class_='content') or soup.find('main') or soup.body];
    a tag is always true. *)
Definition content_area (soup : node) : option node :=
  orelse (find_with_class (py "div") (py "content") soup)
    (orelse (find [py "main"] soup) (find [py "body"] soup)).

Definition extract_title (soup : node) : pystr :=
  match find [py "h1"] soup with
  | Some title_elem => clean_text (get_text title_elem)
  | None => py "Unknown Policy"
  end.

Definition extract_sections (soup : node) : list PolicySection :=
  match content_area soup with
  | Some area => collect_sections (headings_with_siblings area) []
  | None => []
  end.

(** What [requests.get] followed by the parser gives for a URL. *)
Inductive response :=
| RequestException
| OtherException
| Page (soup : node).

(** A call either returns or raises an exception that is not caught
    inside it. *)
Inductive outcome (A : Type) :=
| Return (a : A)
| Raise.
Arguments Return {A} a.
Arguments Raise {A}.

Section Environment.

(** The network and the clock: [get url] is the response to the GET
    request, [today] and [now] are [datetime.now()] in the two formats
    of the source. *)
Variable get : pystr -> response.
Variables today now : pystr.

Definition build_policy (url : pystr) (soup : node) : PolicyDocument :=
  let title := extract_title soup in
  let (approval_date, review_date) := scan_dates (stripped_strings soup) in
  let sections := extract_sections soup in
  {| metadata :=
       {| title := title;
          approval_date := approval_date;
          review_date := if truthy review_date then review_date else today;
          source_path := url;
          scraped_date := now |};
     structure := [{| part_title := py "Main Content"; sections := sections |}];
     qa_index := [] |}.

(** [None] is the source's [return None] after a request error. *)
Definition scrape_policy_document (url : pystr) : outcome (option PolicyDocument) :=
  match get url with
  | RequestException => Return None
  | OtherException => Raise
  | Page soup => Return (Some (build_policy url soup))
  end.

(** *** [save_policy_json] *)

Definition policy_filename (title : pystr) : pystr :=
  let filename :=
    sub_class (fun c => negb (is_word c || is_space c || (c =? HYPHEN)%Z)) [] title in
  let filename :=
    sub_plus (fun c => (c =? HYPHEN)%Z || is_space c) [UNDERSCORE] filename in
  let filename := firstn 80 filename in
  filename ++ py ".json".

(** [os.path.join(a, b)] on a POSIX system. *)
Definition path_join (a b : pystr) : pystr :=
  if startswith b (py "/") then b
  else if negb (truthy a) || (last a 0%Z =? SLASH)%Z then a ++ b
  else a ++ py "/" ++ b.

(** The disk: the files written so far, the latest first; [writable]
    tells whether the directory can be made and the file opened. *)
Definition disk := list (pystr * PolicyDocument).
Variable writable : pystr -> bool.

Definition save_policy_json (policy : PolicyDocument) (output_dir : pystr) (d : disk)
  : outcome (pystr * disk) :=
  let filename := policy_filename (title (metadata policy)) in
  let filepath := path_join output_dir filename in
  if writable filepath then Return (filepath, (filepath, policy) :: d)
  else Raise.

(** *** [scrape_all_policies] *)

Record run := {
  success_count : nat;
  failed_count : nat;
  attempted : list pystr;   (* the URLs passed to [scrape_policy_document], in order *)
  files : disk
}.

Record summary := {
  success : nat;
  failed : nat;
  total : nat
}.

Definition succeeded (r : run) (url : pystr) (d : disk) : run :=
  {| success_count := success_count r + 1;
     failed_count := failed_count r;
     attempted := attempted r ++ [url];
     files := d |}.

Definition failed_one (r : run) (url : pystr) : run :=
  {| success_count := success_count r;
     failed_count := failed_count r + 1;
     attempted := attempted r ++ [url];
     files := files r |}.

(** One iteration of the loop: the [try] block and its [except]. *)
Definition scrape_one (output_dir : pystr) (r : run) (url : pystr) : run :=
  match scrape_policy_document url with
  | Raise => failed_one r url
  | Return None => failed_one r url
  | Return (Some policy) =>
      match structure policy with
      | [] => failed_one r url                       (* IndexError *)
      | part :: _ =>
          match sections part with
          | [] => failed_one r url
          | _ :: _ =>
              match save_policy_json policy output_dir (files r) with
              | Return (_, d) => succeeded r url d
              | Raise => failed_one r url
              end
          end
      end
  end.

(** [policy_links[:n]]. *)
Definition slice_to {A} (l : list A) (n : Z) : list A :=
  if (0 <=? n)%Z then firstn (Z.to_nat n) l
  else firstn (length l - Z.to_nat (- n)) l.

(** [if max_policies:] on an [int] or [None]. *)
Definition max_is_set (max_policies : option Z) : bool :=
  match max_policies with
  | None => false
  | Some n => negb (n =? 0)%Z
  end.

Definition limit_links (policy_links : list pystr) (max_policies : option Z) : list pystr :=
  match max_policies with
  | Some n => if max_is_set max_policies then slice_to policy_links n else policy_links
  | None => policy_links
  end.

Definition start (d : disk) : run :=
  {| success_count := 0; failed_count := 0; attempted := []; files := d |}.

(** [policy_links] is what [get_all_policy_links()] returned. *)
Definition scrape_all_policies (policy_links : list pystr) (output_dir : pystr)
    (max_policies : option Z) (d : disk) : summary * run :=
  match policy_links with
  | [] => ({| success := 0; failed := 0; total := 0 |}, start d)
  | _ :: _ =>
      let policy_links := limit_links policy_links max_policies in
      let r := fold_left (scrape_one output_dir) policy_links (start d) in
      ({| success := success_count r;
          failed := failed_count r;
          total := length policy_links |}, r)
  end.

End Environment.

End Scraper.

Import PyStr Re Soup Scraper.

(** ** Link discovery and the whole run *)

Module Links.
Import PyStr Soup Scraper.

Definition BASE_URL : pystr := py "https://policies.rmit.edu.au".
Definition BROWSE_URL : pystr := BASE_URL ++ py "/browse.php".

Definition has_attr (key : pystr) (n : node) : bool :=
  match n with
  | Tag _ attrs _ =>
      match get_attr key attrs with Some _ => true | None => false end
  | NavigableString _ => false
  end.

(** [soup.find_all('a', href=True)]. *)
Definition anchors_with_href (soup : node) : list node :=
  filter (fun d => has_name [py "a"] d && has_attr (py "href") d) (descendants soup).

(** ['document/view' in href or 'view.php' in href] on a string. *)
Definition is_policy_href (href : pystr) : bool :=
  contains href (py "document/view") || contains href (py "view.php").

(** The three branches that make the URL absolute. *)
Definition absolute_url (href : pystr) : pystr :=
  if startswith href (py "http") then href
  else if startswith href (py "/") then BASE_URL ++ href
  else BASE_URL ++ py "/" ++ href.

(** The loop over the anchors.  [link['href']] raises on a missing
    key; on a list value [in] is membership and [startswith] raises. *)
Fixpoint collect_links (anchors : list node) (policy_links : list pystr)
  : outcome (list pystr) :=
  match anchors with
  | [] => Return policy_links
  | link :: rest =>
      match link with
      | Tag _ attrs _ =>
          match get_attr (py "href") attrs with
          | Some (AttrStr href) =>
              if is_policy_href href
              then collect_links rest (policy_links ++ [absolute_url href])
              else collect_links rest policy_links
          | Some (AttrList l) =>
              if existsb (pystr_eqb (py "document/view")) l
                 || existsb (pystr_eqb (py "view.php")) l
              then Raise
              else collect_links rest policy_links
          | None => Raise
          end
      | NavigableString _ => Raise
      end
  end.

(** [list_of_set] is [list(set(...))]: the order in which the set is
    listed is not fixed by the source. *)
Definition get_all_policy_links (get : pystr -> response)
    (list_of_set : list pystr -> list pystr) : outcome (list pystr) :=
  match get BROWSE_URL with
  | RequestException => Return []
  | OtherException => Raise
  | Page soup =>
      match collect_links (anchors_with_href soup) [] with
      | Return policy_links => Return (list_of_set policy_links)
      | Raise => Raise
      end
  end.

(** [scrape_all_policies] with its own call of [get_all_policy_links]. *)
Definition run_scraper (get : pystr -> response) (today now : pystr)
    (writable : pystr -> bool) (list_of_set : list pystr -> list pystr)
    (output_dir : pystr) (max_policies : option Z) (d : disk)
  : outcome (summary * run) :=
  match get_all_policy_links get list_of_set with
  | Return policy_links =>
      Return (scrape_all_policies get today now writable policy_links
                output_dir max_policies d)
  | Raise => Raise
  end.

End Links.

Import Links.

(** * Vocabulary of the statements and sample inputs *)

(** ** Clause numbers *)

Definition numbers (cs : list Clause) : list pystr := map clause_number cs.

(** A list item is kept when its normalised text has 20 characters or more. *)
Definition long_enough (li : node) : bool :=
  20 <=? length (clean_text (get_text li)).

(** The positions, counted from 0, of the items of a list that are kept. *)
Definition kept_positions (items : list node) : list nat :=
  filter (fun i => long_enough (nth i items (NavigableString [])))
         (seq 0 (length items)).

(** ** Sample pages *)

Definition li_of (s : string) : node := Tag (py "li") [] [NavigableString (py s)].

Definition five_items : node :=
  Tag (py "ol") []
    [ li_of "Staff must lodge a travel request.";
      li_of "Too short";
      li_of "Requests are approved by the manager.";
      li_of "Receipts are kept for seven years.";
      li_of "Claims are paid within thirty days." ].

Definition elem (name : string) (cs : list node) : node := Tag (py name) [] cs.
Definition txt (s : string) : node := NavigableString (py s).

(** A page with a title, two approval fragments, a section made of a
    list whose first item is too short, a heading without content and
    a section made of two paragraphs. *)
Definition sample_page : node :=
  elem "[document]"
    [ elem "html"
        [ elem "body"
            [ elem "h1" [txt "Travel Policy"];
              elem "p" [txt "Approved 01/02/2023 by Council"];
              elem "p" [txt "Approved and reviewed 3-4-2024"];
              elem "h2" [txt "Scope"];
              elem "ol" [ li_of "Too short";
                          li_of "This policy applies to all staff." ];
              elem "h2" [txt "Definitions"];
              elem "h2" [txt "Purpose"];
              elem "p" [txt "Travel must be booked in advance."];
              elem "p" [txt "Expenses are claimed with receipts."] ] ] ].

Definition sample_get (url : pystr) : response := Page sample_page.
Definition sample_url : pystr := py "https://policies.rmit.edu.au/document/view.php?id=1".
Definition sample_doc : PolicyDocument :=
  build_policy (py "2024-05-01") (py "2024-05-01 10:00:00") sample_url sample_page.
Definition sample_part : Part :=
  {| part_title := py "Main Content"; sections := extract_sections sample_page |}.
Definition no_section : PolicySection := {| section_title := []; clauses := [] |}.
Definition scope_section : PolicySection := nth 0 (extract_sections sample_page) no_section.
Definition purpose_section : PolicySection := nth 1 (extract_sections sample_page) no_section.

(** ** Numbering of a section *)




(** ** Dates *)

(** A date as the pattern reads it: one or two digits, a separator,
    one or two digits, a separator, four digits; each separator is a
    hyphen or a slash. *)
Definition all_decimal (s : pystr) : Prop := Forall (fun c => is_decimal c = true) s.

Definition date_form (d : pystr) : Prop :=
  exists day s1 month s2 year,
    d = day ++ s1 :: month ++ s2 :: year /\
    (1 <= length day <= 2) /\ all_decimal day /\
    (s1 = HYPHEN \/ s1 = SLASH) /\
    (1 <= length month <= 2) /\ all_decimal month /\
    (s2 = HYPHEN \/ s2 = SLASH) /\
    length year = 4 /\ all_decimal year.

Definition occurs_in (d text : pystr) : Prop :=
  exists before after, text = before ++ d ++ after.

Definition mentions_approval (text : pystr) : bool :=
  contains (lower text) (py "approval date") || contains (lower text) (py "approved").

Definition mentions_review (text : pystr) : bool :=
  contains (lower text) (py "review date") || contains (lower text) (py "reviewed").

Definition has_date (text : pystr) : bool :=
  match search_date text with Some _ => true | None => false end.

(** ** A network with failures *)

(** The first URL answers with the sample page, the second with a
    request error, the third makes the parser raise, and any other
    answers with a page that has no heading. *)
Definition failing_get (url : pystr) : response :=
  if pystr_eqb url (py "a") then Page sample_page
  else if pystr_eqb url (py "b") then RequestException
  else if pystr_eqb url (py "c") then OtherException
  else Page (elem "[document]" [elem "body" [elem "p" [txt "No heading on this page at all."]]]).

(** ** File names *)

(** The characters that the first substitution leaves in place, and
    those that the second one turns into underscores. *)
Definition kept_in_name (c : Z) : bool := is_word c || is_space c || (c =? HYPHEN)%Z.
Definition is_name_sep (c : Z) : bool := (c =? HYPHEN)%Z || is_space c.

Fixpoint takewhile (p : Z -> bool) (s : pystr) : pystr :=
  match s with
  | [] => []
  | c :: t => if p c then c :: takewhile p t else []
  end.

Definition starts_outside (sep : Z -> bool) (s : pystr) : Prop :=
  match s with
  | [] => True
  | c :: _ => sep c = false
  end.

(** [collapsed sep s r]: [r] is [s] with every maximal run of
    separators replaced by one underscore. *)
Inductive collapsed (sep : Z -> bool) : pystr -> pystr -> Prop :=
| collapsed_nil : collapsed sep [] []
| collapsed_char c s r :
    sep c = false -> collapsed sep s r -> collapsed sep (c :: s) (c :: r)
| collapsed_run run s r :
    run <> [] -> forallb sep run = true -> starts_outside sep s ->
    collapsed sep s r -> collapsed sep (run ++ s) (UNDERSCORE :: r).

Definition punctuation_policy : PolicyDocument :=
  {| metadata := {| title := py "?!";
                    approval_date := [];
                    review_date := py "2024-05-01";
                    source_path := sample_url;
                    scraped_date := py "2024-05-01 10:00:00" |};
     structure := [sample_part];
     qa_index := [] |}.

(** ** Normalised text *)

(** Two whitespace characters side by side somewhere in the text. *)
Fixpoint double_space (s : pystr) : bool :=
  match s with
  | [] => false
  | a :: t =>
      match t with
      | [] => false
      | b :: _ => (is_space a && is_space b) || double_space t
      end
  end.

(** Trimmed and single-spaced: no whitespace at either end, no two
    whitespace characters in a row, and no whitespace character other
    than the ASCII space. *)
Definition normal_spaced (s : pystr) : Prop :=
  starts_outside is_space s /\ starts_outside is_space (rev s) /\
  double_space s = false /\
  (forall c, In c s -> is_space c = true -> c = SPACE).

(** ** Sets of links *)

(** What is known of [list(set(l))]: the elements of [l], each once. *)
Definition lists_a_set (list_of_set : list pystr -> list pystr) : Prop :=
  forall l, NoDup (list_of_set l) /\ (forall u, In u (list_of_set l) <-> In u l).

Definition first_seen (l : list pystr) : list pystr :=
  nodup (list_eq_dec Z.eq_dec) l.

Definition href_of (n : node) : option pystr :=
  match n with
  | Tag _ attrs _ =>
      match get_attr (py "href") attrs with
      | Some (AttrStr href) => Some href
      | _ => None
      end
  | NavigableString _ => None
  end.

(** [u] is the absolute form of the [href] of one of the anchors, and
    that [href] names a policy document. *)
Definition comes_from (anchors : list node) (u : pystr) : Prop :=
  exists a href,
    In a anchors /\ href_of a = Some href /\ is_policy_href href = true
    /\ u = absolute_url href.

Definition anchor (href : string) (label : string) : node :=
  Tag (py "a") [(py "href", AttrStr (py href))] [txt label].

(** The listing page of the specification's example, with one more
    relative link. *)
Definition browse_page : node :=
  elem "[document]"
    [ elem "body"
        [ anchor "/document/view/123" "Travel";
          anchor "https://policies.rmit.edu.au/document/view/123" "Travel again";
          anchor "/other/page" "About";
          anchor "view.php?id=7" "Leave" ] ].

Definition browse_get (url : pystr) : response :=
  if pystr_eqb url BROWSE_URL then Page browse_page else sample_get url.

(** ** Subclauses of a list item *)

(** The subclauses of an item, read off the page: the long enough
    texts of the list items below the first nested list. *)
Definition subclauses_of (li : node) : list pystr :=
  match find [py "ol"; py "ul"] li with
  | Some nested_list =>
      filter (fun s => 20 <=? length s)
        (map (fun sub_li => clean_text (get_text sub_li))
             (find_all [py "li"] nested_list))
  | None => []
  end.

Definition well_sized (c : Clause) : Prop :=
  20 <= length (text c) /\ (forall s, In s (subclauses c) -> 20 <= length s).

(** A section whose heading is repeated, identically, before its
    second paragraph. *)
Definition twin_heading : node := elem "h2" [txt "Scope"].
Definition twin_siblings : list node :=
  [ elem "p" [txt "This policy applies to all staff."];
    elem "h2" [txt "Scope"];
    elem "p" [txt "It also applies to contractors."];
    elem "h3" [txt "Exceptions"];
    elem "p" [txt "Never reached by the walk for Scope."] ].

(** ** Dates found in a page *)

(** [d] is the date read in one of the fragments that mention the
    keyword. *)
Definition read_from (mentions : pystr -> bool) (fragments : list pystr) (d : pystr) : Prop :=
  exists f, In f fragments /\ mentions f = true /\ search_date f = Some d.

(** A page without any date. *)
Definition undated_page : node :=
  elem "[document]"
    [ elem "body"
        [ elem "h1" [txt "Leave Policy"];
          elem "p" [txt "Approved by Council; to be reviewed yearly."] ] ].

(** ** Two documents with similar titles *)

Definition titled (t : string) : PolicyDocument :=
  {| metadata := {| title := py t;
                    approval_date := [];
                    review_date := py "2024-05-01";
                    source_path := sample_url;
                    scraped_date := py "2024-05-01 10:00:00" |};
     structure := [sample_part];
     qa_index := [] |}.

(** ** Reading the outcome of a run *)

Definition is_page (r : response) : bool :=
  match r with Page _ => true | _ => false end.



(** A page with paragraphs but no h2 or h3. *)
Definition flat_page : node :=
  elem "[document]"
    [ elem "body"
        [ elem "h1" [txt "Parking Policy"];
          elem "p" [txt "Parking permits are issued every year."] ] ].

(** * Properties *)

(** ** Text normalisation *)

Lemma replace1_removes (old : Z) (s : pystr) : ~ In old (replace1 old [] s).
Proof.
  unfold replace1. intro H. apply in_flat_map in H.
  destruct H as [c [Hc H]].
  destruct (Z.eqb_spec c old) as [->|Hne]; simpl in H.
  - exact H.
  - destruct H as [H|[]]. congruence.
Qed.

Lemma replace1_keeps_out (old x : Z) (new s : pystr) :
  ~ In x new -> ~ In x s -> ~ In x (replace1 old new s).
Proof.
  intros Hnew Hs H. unfold replace1 in H. apply in_flat_map in H.
  destruct H as [c [Hc H]].
  destruct (c =? old)%Z.
  - auto.
  - destruct H as [H|[]]. subst. auto.
Qed.

Lemma replace1_replaces (old : Z) (new s : pystr) :
  ~ In old new -> ~ In old (replace1 old new s).
Proof.
  intros Hnew H. unfold replace1 in H. apply in_flat_map in H.
  destruct H as [c [Hc H]].
  destruct (Z.eqb_spec c old) as [->|Hne].
  - auto.
  - destruct H as [H|[]]. congruence.
Qed.

(** X1.  On every input the result of [clean_text] holds neither a
    no-break space nor a zero width space. *)
Lemma clean_text_no_nbsp_no_zwsp (text : pystr) :
  ~ In NBSP (clean_text text) /\ ~ In ZWSP (clean_text text).
Proof.
  unfold clean_text. destruct (negb (truthy text)).
  - split; intros [].
  - split.
    + apply replace1_keeps_out.
      * intros [].
      * apply replace1_replaces. intros [H|[]]. discriminate H.
    + apply replace1_removes.
Qed.

(** C3 (defect in the code).  The zero width spaces are removed after
    the runs of whitespace have been collapsed, so the two spaces
    around one end up side by side: the text made of "a", a space, U+200B,
    a space and "b" is normalised to "a", two spaces and "b". *)
Theorem clean_text_leaves_double_space :
  clean_text [97; SPACE; ZWSP; SPACE; 98]%Z = [97; SPACE; SPACE; 98]%Z.
Proof. vm_compute. reflexivity. Qed.

(** ** Clause extraction *)

Lemma long_enough_ltb (li : node) :
  (length (clean_text (get_text li)) <? 20) = negb (long_enough li).
Proof.
  unfold long_enough.
  destruct (Nat.ltb_spec (length (clean_text (get_text li))) 20);
    destruct (Nat.leb_spec 20 (length (clean_text (get_text li))));
    simpl; auto; lia.
Qed.

Lemma filter_nth_shift (f : node -> bool) (x d : node) (l : list node) :
  forall n s,
    filter (fun i => f (nth i (x :: l) d)) (seq (S s) n)
    = map S (filter (fun i => f (nth i l d)) (seq s n)).
Proof.
  induction n as [|n IH]; intro s; simpl.
  - reflexivity.
  - rewrite IH. destruct (f (nth s l d)); reflexivity.
Qed.

Lemma extract_loop_numbers (items : list node) :
  forall i acc,
    numbers (extract_loop i items acc)
    = numbers acc ++ map (fun k => str (i + k + 1)) (kept_positions items).
Proof.
  unfold numbers, kept_positions.
  induction items as [|li rest IH]; intros i acc.
  - simpl. now rewrite app_nil_r.
  - cbn [extract_loop length seq filter].
    rewrite long_enough_ltb, filter_nth_shift. cbn [nth].
    destruct (long_enough li); cbn [negb].
    + rewrite IH, map_app. cbn [map clause_number].
      rewrite <- app_assoc. f_equal. cbn [app].
      rewrite Nat.add_0_r. f_equal.
      rewrite map_map. apply map_ext. intro k. f_equal. lia.
    + rewrite IH. f_equal.
      rewrite map_map. apply map_ext. intro k. f_equal. lia.
Qed.

(** C1.  The clause numbers returned for a list are the decimal
    strings of (position + 1) over the positions of the direct items
    that are kept, the skipped items being counted; with five direct
    items of which only the second is too short they are "1", "3",
    "4", "5". *)
Theorem clause_number_is_item_position (ol_element : node) :
  numbers (extract_clauses_from_list ol_element)
  = map (fun i => str (i + 1))
        (kept_positions (find_all_children [py "li"] ol_element))
  /\ (forall a b c d e,
        find_all_children [py "li"] ol_element = [a; b; c; d; e] ->
        long_enough a = true -> long_enough b = false ->
        long_enough c = true -> long_enough d = true ->
        long_enough e = true ->
        numbers (extract_clauses_from_list ol_element)
        = [py "1"; py "3"; py "4"; py "5"]).
Proof.
  assert (G : numbers (extract_clauses_from_list ol_element)
              = map (fun i => str (i + 1))
                  (kept_positions (find_all_children [py "li"] ol_element))).
  { unfold extract_clauses_from_list. rewrite extract_loop_numbers. reflexivity. }
  split; [exact G|].
  intros a b c d e Hitems Ha Hb Hc Hd He.
  rewrite G, Hitems. unfold kept_positions.
  cbn [length seq filter nth]. rewrite Ha, Hb, Hc, Hd, He.
  reflexivity.
Qed.

Lemma clause_number_is_item_position_witness :
  numbers (extract_clauses_from_list five_items) = [py "1"; py "3"; py "4"; py "5"].
Proof.
  apply (proj2 (clause_number_is_item_position five_items)
           (li_of "Staff must lodge a travel request.")
           (li_of "Too short")
           (li_of "Requests are approved by the manager.")
           (li_of "Receipts are kept for seven years.")
           (li_of "Claims are paid within thirty days."));
    vm_compute; reflexivity.
Defined.

(** ** Sections of a document *)

Lemma collect_sections_origin (headings : list (node * list node)) :
  forall acc sec,
    In sec (collect_sections headings acc) ->
    In sec acc \/
    exists heading siblings,
      In (heading, siblings) headings /\
      section_title sec = clean_text (get_text heading) /\
      clauses sec = walk_siblings heading siblings [] /\
      clauses sec <> [].
Proof.
  induction headings as [|[heading siblings] rest IH]; intros acc sec H.
  - left. exact H.
  - cbn [collect_sections] in H.
    assert (K : forall acc',
               In sec (collect_sections rest acc') ->
               (forall s, In s acc' -> In s acc \/
                  (section_title s = clean_text (get_text heading) /\
                   clauses s = walk_siblings heading siblings [] /\
                   clauses s <> [])) ->
               In sec acc \/
               exists h sibs,
                 In (h, sibs) ((heading, siblings) :: rest) /\
                 section_title sec = clean_text (get_text h) /\
                 clauses sec = walk_siblings h sibs [] /\
                 clauses sec <> []).
    { intros acc' Hin Hacc. apply IH in Hin. destruct Hin as [Hin|Hin].
      - destruct (Hacc _ Hin) as [?|?]; [now left|].
        right. exists heading, siblings. split; [now left|assumption].
      - right. destruct Hin as (h & sibs & Hh & Hrest).
        exists h, sibs. split; [now right|assumption]. }
    destruct (negb (truthy (clean_text (get_text heading)))
              || (length (clean_text (get_text heading)) <? 3)).
    + apply (K acc H). intros s Hs. now left.
    + destruct (walk_siblings heading siblings []) as [|c cs] eqn:Hw.
      * apply (K acc H). intros s Hs. now left.
      * apply (K _ H). intros s Hs. apply in_app_or in Hs.
        destruct Hs as [Hs|[Hs|[]]]; [now left|].
        right. subst s. cbn. repeat split; try reflexivity. discriminate.
Qed.

Lemma build_policy_structure (today now url : pystr) (soup : node) :
  structure (build_policy today now url soup)
  = [{| part_title := py "Main Content"; sections := extract_sections soup |}].
Proof.
  unfold build_policy. destruct (scan_dates (stripped_strings soup)). reflexivity.
Qed.

Lemma scrape_returns_built (get : pystr -> response) (today now url : pystr)
    (doc : PolicyDocument) :
  scrape_policy_document get today now url = Return (Some doc) ->
  exists soup, get url = Page soup /\ doc = build_policy today now url soup.
Proof.
  unfold scrape_policy_document. destruct (get url) as [| |soup]; intro H.
  - discriminate H.
  - discriminate H.
  - exists soup. split; [reflexivity|]. now inversion H.
Qed.

Lemma document_sections_origin (get : pystr -> response) (today now url : pystr)
    (doc : PolicyDocument) (part : Part) (sec : PolicySection) :
  scrape_policy_document get today now url = Return (Some doc) ->
  In part (structure doc) -> In sec (sections part) ->
  exists soup area heading siblings,
    get url = Page soup /\ content_area soup = Some area /\
    In (heading, siblings) (headings_with_siblings area) /\
    section_title sec = clean_text (get_text heading) /\
    clauses sec = walk_siblings heading siblings [] /\
    clauses sec <> [].
Proof.
  intros Hdoc Hpart Hsec.
  destruct (scrape_returns_built _ _ _ _ _ Hdoc) as (soup & Hget & ->).
  rewrite build_policy_structure in Hpart.
  destruct Hpart as [<-|[]]. cbn [sections] in Hsec.
  unfold extract_sections in Hsec.
  destruct (content_area soup) as [area|] eqn:Harea; [|destruct Hsec].
  apply collect_sections_origin in Hsec. destruct Hsec as [[]|Hsec].
  destruct Hsec as (heading & siblings & H).
  exists soup, area, heading, siblings. auto.
Qed.

(** C6.  Every section of a document returned by the extractor has at
    least one clause. *)
Theorem no_empty_section (get : pystr -> response) (today now url : pystr)
    (doc : PolicyDocument) (part : Part) (sec : PolicySection) :
  scrape_policy_document get today now url = Return (Some doc) ->
  In part (structure doc) -> In sec (sections part) ->
  clauses sec <> [] /\ 1 <= length (clauses sec).
Proof.
  intros Hdoc Hpart Hsec.
  destruct (document_sections_origin _ _ _ _ _ _ _ Hdoc Hpart Hsec)
    as (soup & area & heading & siblings & _ & _ & _ & _ & _ & Hne).
  split; [exact Hne|].
  destruct (clauses sec); [congruence|simpl; lia].
Qed.

Lemma sample_doc_scraped :
  scrape_policy_document sample_get (py "2024-05-01") (py "2024-05-01 10:00:00") sample_url
  = Return (Some sample_doc).
Proof. reflexivity. Qed.

Lemma sample_part_in_doc : In sample_part (structure sample_doc).
Proof. left. vm_compute. reflexivity. Qed.

Lemma scope_section_in_part : In scope_section (sections sample_part).
Proof. left. vm_compute. reflexivity. Qed.


Lemma no_empty_section_witness :
  clauses scope_section <> [] /\ 1 <= length (clauses scope_section).
Proof.
  exact (no_empty_section sample_get _ _ sample_url sample_doc sample_part scope_section
           sample_doc_scraped sample_part_in_doc scope_section_in_part).
Defined.






Example purpose_section_numbers :
  numbers (clauses purpose_section) = [py "1"; py "2"]
  /\ numbers (clauses scope_section) = [py "2"].
Proof. vm_compute. split; reflexivity. Qed.

(** ** Dates *)

Lemma one_inv (cls : Z -> bool) (s t : pystr) :
  one cls s = Some t -> exists c, s = c :: t /\ cls c = true.
Proof.
  destruct s as [|c s']; simpl; [discriminate|].
  destruct (cls c) eqn:E; [|discriminate].
  intro H. inversion H. subst. eauto.
Qed.

Lemma then_one_inv (cls : Z -> bool) (k : pystr -> option pystr) (s r : pystr) :
  then_one cls k s = Some r ->
  exists c t, s = c :: t /\ cls c = true /\ k t = Some r.
Proof.
  unfold then_one. destruct (one cls s) as [t|] eqn:E; [|discriminate].
  intro H. destruct (one_inv _ _ _ E) as (c & -> & Hc). eauto.
Qed.

Lemma one_or_two_inv (cls : Z -> bool) (k : pystr -> option pystr) (s r : pystr) :
  one_or_two cls k s = Some r ->
  exists ds t, s = ds ++ t /\ (1 <= length ds <= 2) /\
               Forall (fun c => cls c = true) ds /\ k t = Some r.
Proof.
  unfold one_or_two. destruct (one cls s) as [t1|] eqn:E1; [|discriminate].
  destruct (one_inv _ _ _ E1) as (c1 & -> & Hc1).
  destruct (one cls t1) as [t2|] eqn:E2.
  - destruct (one_inv _ _ _ E2) as (c2 & -> & Hc2).
    destruct (k t2) as [r2|] eqn:K2; cbn [orelse]; intro H.
    + inversion H; subst. exists [c1; c2], t2.
      repeat split; simpl; auto.
    + exists [c1], (c2 :: t2). repeat split; simpl; auto.
  - cbn [orelse]. intro H. exists [c1], t1. repeat split; simpl; auto.
Qed.

Lemma is_date_sep_inv (c : Z) : is_date_sep c = true -> c = HYPHEN \/ c = SLASH.
Proof.
  unfold is_date_sep. intro H. apply orb_prop in H.
  destruct H as [H|H]; apply Z.eqb_eq in H; auto.
Qed.

Lemma match_date_here_form (s rest : pystr) :
  match_date_here s = Some rest -> exists d, s = d ++ rest /\ date_form d.
Proof.
  unfold match_date_here. intro H.
  apply one_or_two_inv in H. destruct H as (day & t1 & -> & Hday & Dday & H).
  apply then_one_inv in H. destruct H as (s1 & t2 & -> & Hs1 & H).
  apply one_or_two_inv in H. destruct H as (month & t3 & -> & Hmonth & Dmonth & H).
  apply then_one_inv in H. destruct H as (s2 & t4 & -> & Hs2 & H).
  apply then_one_inv in H. destruct H as (y1 & t5 & -> & Hy1 & H).
  apply then_one_inv in H. destruct H as (y2 & t6 & -> & Hy2 & H).
  apply then_one_inv in H. destruct H as (y3 & t7 & -> & Hy3 & H).
  apply then_one_inv in H. destruct H as (y4 & t8 & -> & Hy4 & H).
  inversion H; subst t8.
  exists (day ++ s1 :: month ++ s2 :: [y1; y2; y3; y4]). split.
  - rewrite <- app_assoc. cbn [app]. rewrite <- app_assoc. reflexivity.
  - exists day, s1, month, s2, [y1; y2; y3; y4].
    repeat split; try (apply is_date_sep_inv); try assumption; try lia.
    repeat constructor; assumption.
Qed.

Lemma search_date_cons (c : Z) (t : pystr) :
  search_date (c :: t)
  = match match_date_here (c :: t) with
    | Some rest => Some (firstn (length (c :: t) - length rest) (c :: t))
    | None => search_date t
    end.
Proof. reflexivity. Qed.

Lemma firstn_matched (d rest : pystr) :
  firstn (length (d ++ rest) - length rest) (d ++ rest) = d.
Proof.
  rewrite length_app, Nat.add_sub, firstn_app, Nat.sub_diag, firstn_all.
  cbn [firstn]. apply app_nil_r.
Qed.

Lemma search_date_form (s d : pystr) :
  search_date s = Some d -> date_form d /\ occurs_in d s.
Proof.
  induction s as [|c t IH].
  - intro H. lazy in H. discriminate H.
  - rewrite search_date_cons.
    destruct (match_date_here (c :: t)) as [rest|] eqn:E.
    + intro H.
      apply match_date_here_form in E. destruct E as (d' & E & Hform).
      rewrite E, firstn_matched in H. injection H as <-.
      split; [exact Hform|]. exists [], rest. exact E.
    + intro H. apply IH in H. destruct H as [Hform (before & after & ->)].
      split; [exact Hform|]. exists (c :: before), after. reflexivity.
Qed.

Lemma date_form_truthy (d : pystr) : date_form d -> truthy d = true.
Proof.
  intros (day & s1 & month & s2 & year & -> & Hday & _).
  destruct day; [simpl in Hday; lia|reflexivity].
Qed.

Lemma scan_fragment_fst (a r text : pystr) :
  fst (scan_fragment (a, r) text)
  = if mentions_approval text
    then match search_date text with Some g => g | None => a end
    else a.
Proof. reflexivity. Qed.

Lemma scan_fragment_snd (a r text : pystr) :
  snd (scan_fragment (a, r) text)
  = if mentions_review text
    then match search_date text with Some g => g | None => r end
    else r.
Proof. reflexivity. Qed.

Lemma scan_keeps_approval (fragments : list pystr) :
  forall dates,
    forallb (fun g => negb (mentions_approval g && has_date g)) fragments = true ->
    fst (fold_left scan_fragment fragments dates) = fst dates.
Proof.
  induction fragments as [|g rest IH]; intros [a r] H.
  - reflexivity.
  - cbn [forallb] in H. apply andb_prop in H. destruct H as [Hg Hrest].
    cbn [fold_left]. rewrite (IH _ Hrest).
    rewrite scan_fragment_fst. unfold has_date in Hg.
    destruct (mentions_approval g); [|reflexivity].
    destruct (search_date g); [discriminate Hg|reflexivity].
Qed.

Lemma scan_keeps_review (fragments : list pystr) :
  forall dates,
    forallb (fun g => negb (mentions_review g && has_date g)) fragments = true ->
    snd (fold_left scan_fragment fragments dates) = snd dates.
Proof.
  induction fragments as [|g rest IH]; intros [a r] H.
  - reflexivity.
  - cbn [forallb] in H. apply andb_prop in H. destruct H as [Hg Hrest].
    cbn [fold_left]. rewrite (IH _ Hrest).
    rewrite scan_fragment_snd. unfold has_date in Hg.
    destruct (mentions_review g); [|reflexivity].
    destruct (search_date g); [discriminate Hg|reflexivity].
Qed.

Lemma build_policy_dates (today now url : pystr) (soup : node) :
  approval_date (metadata (build_policy today now url soup))
  = fst (scan_dates (stripped_strings soup))
  /\ review_date (metadata (build_policy today now url soup))
     = (if truthy (snd (scan_dates (stripped_strings soup)))
        then snd (scan_dates (stripped_strings soup)) else today).
Proof.
  unfold build_policy. destruct (scan_dates (stripped_strings soup)). split; reflexivity.
Qed.

(** C4.  The scan goes through all the fragments: when a fragment with
    an approval (resp. review) keyword and a date is followed by no
    other such fragment, its date is the one stored, whatever the
    fragments before it had set. *)
Theorem last_matching_fragment_wins (today now url : pystr) (soup : node)
    (before : list pystr) (f : pystr) (after : list pystr) (d : pystr) :
  stripped_strings soup = before ++ f :: after ->
  search_date f = Some d ->
  (mentions_approval f = true ->
   forallb (fun g => negb (mentions_approval g && has_date g)) after = true ->
   approval_date (metadata (build_policy today now url soup)) = d)
  /\
  (mentions_review f = true ->
   forallb (fun g => negb (mentions_review g && has_date g)) after = true ->
   review_date (metadata (build_policy today now url soup)) = d).
Proof.
  intros Hfrags Hd.
  destruct (build_policy_dates today now url soup) as [Ha Hr].
  unfold scan_dates in Ha, Hr. rewrite Hfrags in Ha, Hr.
  rewrite fold_left_app in Ha, Hr. cbn [fold_left] in Ha, Hr.
  destruct (fold_left scan_fragment before ([], [])) as [a0 r0].
  split; intros Hf Hafter.
  - rewrite Ha, (scan_keeps_approval _ _ Hafter), scan_fragment_fst, Hf, Hd.
    reflexivity.
  - rewrite Hr, (scan_keeps_review _ _ Hafter), scan_fragment_snd, Hf, Hd.
    apply search_date_form in Hd. destruct Hd as [Hform _].
    now rewrite (date_form_truthy _ Hform).
Qed.

Lemma last_matching_fragment_wins_witness :
  approval_date (metadata sample_doc) = py "3-4-2024"
  /\ review_date (metadata sample_doc) = py "3-4-2024".
Proof.
  destruct (last_matching_fragment_wins
              (py "2024-05-01") (py "2024-05-01 10:00:00") sample_url sample_page
              [py "Travel Policy"; py "Approved 01/02/2023 by Council"]
              (py "Approved and reviewed 3-4-2024")
              [py "Scope"; py "Too short"; py "This policy applies to all staff.";
               py "Definitions"; py "Purpose";
               py "Travel must be booked in advance.";
               py "Expenses are claimed with receipts."]
              (py "3-4-2024")) as [Ha Hr].
  - vm_compute. reflexivity.
  - vm_compute. reflexivity.
  - split.
    + apply Ha; vm_compute; reflexivity.
    + apply Hr; vm_compute; reflexivity.
Defined.




(** ** The driver *)

Lemma scrape_one_counts (get : pystr -> response) (today now : pystr)
    (writable : pystr -> bool) (output_dir : pystr) (r : run) (url : pystr) :
  let r' := scrape_one get today now writable output_dir r url in
  attempted r' = attempted r ++ [url] /\
  ((success_count r' = success_count r + 1 /\ failed_count r' = failed_count r) \/
   (success_count r' = success_count r /\ failed_count r' = failed_count r + 1)).
Proof.
  unfold scrape_one.
  destruct (scrape_policy_document get today now url) as [[policy|]|];
    try (cbn; auto).
  destruct (structure policy) as [|part ?]; try (cbn; auto).
  destruct (sections part); try (cbn; auto).
  destruct (save_policy_json writable policy output_dir (files r)) as [[? ?]|];
    cbn; auto.
Qed.

Lemma scrape_loop_counts (get : pystr -> response) (today now : pystr)
    (writable : pystr -> bool) (output_dir : pystr) (links : list pystr) :
  forall r,
    let r' := fold_left (scrape_one get today now writable output_dir) links r in
    attempted r' = attempted r ++ links /\
    success_count r' + failed_count r'
    = success_count r + failed_count r + length links.
Proof.
  induction links as [|url rest IH]; intro r; cbn [fold_left length].
  - rewrite app_nil_r. split; [reflexivity|lia].
  - destruct (IH (scrape_one get today now writable output_dir r url)) as [Ha Hc].
    destruct (scrape_one_counts get today now writable output_dir r url) as [Ha1 Hc1].
    cbv zeta in *. rewrite Ha, Hc, Ha1, <- app_assoc. split; [reflexivity|].
    destruct Hc1 as [[-> ->]|[-> ->]]; lia.
Qed.

(** With a maximum of one or more, the links kept are the first ones,
    in order, and no more than the maximum. *)
Lemma limit_links_positive (links : list pystr) (n : Z) :
  (0 < n)%Z ->
  limit_links links (Some n) = firstn (Z.to_nat n) links /\
  length (limit_links links (Some n)) = Nat.min (Z.to_nat n) (length links).
Proof.
  intro Hn. unfold limit_links, max_is_set, slice_to.
  destruct (Z.eqb_spec n 0); [lia|]. cbn [negb].
  destruct (Z.leb_spec 0 n); [|lia].
  split; [reflexivity|apply length_firstn].
Qed.

(** C7 (defect in the code).  A maximum of 0 is taken for no maximum
    at all: with one link found and [max_policies = 0] the link is
    scraped and the total is 1, where the first min(0, 1) = 0 links
    were to be processed. *)
Theorem zero_maximum_scrapes_everything (get : pystr -> response) (today now : pystr)
    (writable : pystr -> bool) (url output_dir : pystr) (d : disk) :
  total (fst (scrape_all_policies get today now writable [url] output_dir (Some 0%Z) d)) = 1
  /\ attempted (snd (scrape_all_policies get today now writable [url] output_dir (Some 0%Z) d))
     = [url].
Proof.
  cbn [scrape_all_policies limit_links max_is_set Z.eqb negb fst snd total length fold_left].
  split; [reflexivity|].
  destruct (scrape_one_counts get today now writable output_dir (start d) url) as [H _].
  exact H.
Qed.

(** C9.  When links were found, the two counters add up to the total,
    the total is the number of links left by the truncation, and these
    links are the ones attempted, each once and in order. *)
Theorem counters_add_up (get : pystr -> response) (today now : pystr)
    (writable : pystr -> bool) (policy_links : list pystr) (output_dir : pystr)
    (max_policies : option Z) (d : disk) :
  policy_links <> [] ->
  let result :=
    scrape_all_policies get today now writable policy_links output_dir max_policies d in
  success (fst result) + failed (fst result) = total (fst result)
  /\ total (fst result) = length (limit_links policy_links max_policies)
  /\ attempted (snd result) = limit_links policy_links max_policies.
Proof.
  intro Hne. destruct policy_links as [|u rest]; [congruence|].
  cbv zeta. unfold scrape_all_policies. cbn [fst snd success failed total].
  destruct (scrape_loop_counts get today now writable output_dir
              (limit_links (u :: rest) max_policies) (start d)) as [Ha Hc].
  cbv zeta in Ha, Hc. cbn [start attempted success_count failed_count app] in Ha, Hc.
  repeat split; [lia|exact Ha].
Qed.

Lemma counters_add_up_witness :
  let result :=
    scrape_all_policies failing_get [] [] (fun _ => true)
      [py "a"; py "b"; py "c"; py "d"; py "e"] (py "./data/policies") (Some 4%Z) [] in
  success (fst result) + failed (fst result) = total (fst result)
  /\ total (fst result) = length (limit_links [py "a"; py "b"; py "c"; py "d"; py "e"] (Some 4%Z))
  /\ attempted (snd result) = limit_links [py "a"; py "b"; py "c"; py "d"; py "e"] (Some 4%Z).
Proof.
  apply (counters_add_up failing_get [] [] (fun _ => true)
           [py "a"; py "b"; py "c"; py "d"; py "e"] (py "./data/policies") (Some 4%Z) []).
  discriminate.
Defined.

Example four_links_summary :
  fst (scrape_all_policies failing_get [] [] (fun _ => true)
         [py "a"; py "b"; py "c"; py "d"; py "e"] (py "./data/policies") (Some 4%Z) [])
  = {| success := 1; failed := 3; total := 4 |}.
Proof. vm_compute. reflexivity. Qed.

(** ** File names *)

Lemma takewhile_dropwhile (p : Z -> bool) (s : pystr) :
  s = takewhile p s ++ dropwhile p s
  /\ forallb p (takewhile p s) = true
  /\ starts_outside p (dropwhile p s)
  /\ length (dropwhile p s) <= length s.
Proof.
  induction s as [|c t IH].
  - simpl. auto.
  - cbn [takewhile dropwhile]. destruct (p c) eqn:E.
    + destruct IH as (H1 & H2 & H3 & H4). cbn [app forallb length].
      rewrite E, H2. repeat split; auto. now rewrite <- H1.
    + cbn [app forallb starts_outside]. auto.
Qed.

Lemma sub_plus_in_run (cls : Z -> bool) (repl s : pystr) :
  sub_plus_from cls repl true s = sub_plus_from cls repl false (dropwhile cls s).
Proof.
  induction s as [|c t IH].
  - reflexivity.
  - cbn [sub_plus_from dropwhile]. destruct (cls c) eqn:E.
    + exact IH.
    + cbn [sub_plus_from]. now rewrite E.
Qed.

Lemma sub_plus_collapsed (sep : Z -> bool) :
  forall n s, length s <= n -> collapsed sep s (sub_plus sep [UNDERSCORE] s).
Proof.
  unfold sub_plus.
  induction n as [|n IH]; intros s Hlen.
  - destruct s; [constructor|simpl in Hlen; lia].
  - destruct s as [|c t]; [constructor|].
    cbn [length] in Hlen. cbn [sub_plus_from]. destruct (sep c) eqn:E.
    + rewrite sub_plus_in_run. cbn [app].
      destruct (takewhile_dropwhile sep t) as (H1 & H2 & H3 & H4).
      replace (c :: t) with ((c :: takewhile sep t) ++ dropwhile sep t)
        by (cbn [app]; now rewrite <- H1).
      apply collapsed_run.
      * discriminate.
      * cbn [forallb]. now rewrite E, H2.
      * exact H3.
      * apply IH. lia.
    + apply collapsed_char; [exact E|]. apply IH. lia.
Qed.

Lemma sub_class_filter (keep : Z -> bool) (s : pystr) :
  sub_class (fun c => negb (keep c)) [] s = filter keep s.
Proof.
  unfold sub_class. induction s as [|c t IH].
  - reflexivity.
  - cbn [flat_map filter]. rewrite IH. destruct (keep c); reflexivity.
Qed.

Lemma policy_filename_steps (title : pystr) :
  policy_filename title
  = firstn 80 (sub_plus is_name_sep [UNDERSCORE] (filter kept_in_name title))
      ++ py ".json".
Proof.
  rewrite <- (sub_class_filter kept_in_name title). reflexivity.
Qed.

(** C8.  The title "Staff Travel & Expenses: Policy!" gives the file
    name "Staff_Travel_Expenses_Policy.json"; for every title, the
    name is made of the characters of the title that are word
    characters, whitespace or hyphens, with every run of whitespace
    and hyphens collapsed to one underscore, cut to its first 80
    characters and followed by ".json". *)
Theorem filename_derivation :
  policy_filename (py "Staff Travel & Expenses: Policy!")
  = py "Staff_Travel_Expenses_Policy.json"
  /\ forall title,
       exists base,
         collapsed is_name_sep (filter kept_in_name title) base /\
         policy_filename title = firstn 80 base ++ py ".json" /\
         length (firstn 80 base) <= 80.
Proof.
  split.
  - vm_compute. reflexivity.
  - intro title.
    exists (sub_plus is_name_sep [UNDERSCORE] (filter kept_in_name title)).
    split; [|split].
    + apply (sub_plus_collapsed is_name_sep _ _ (le_n _)).
    + apply policy_filename_steps.
    + rewrite length_firstn. apply Nat.le_min_l.
Qed.

Lemma filter_without_words (title : pystr) :
  forallb (fun c => negb (is_word c)) title = true ->
  filter kept_in_name title = filter is_name_sep title.
Proof.
  induction title as [|c t IH]; intro H.
  - reflexivity.
  - cbn [forallb] in H. apply andb_prop in H. destruct H as [Hc Ht].
    cbn [filter]. rewrite (IH Ht). unfold kept_in_name, is_name_sep.
    destruct (is_word c); [discriminate Hc|].
    cbn [orb]. rewrite orb_comm. reflexivity.
Qed.

Lemma sub_plus_all_separators (sep : Z -> bool) (repl s : pystr) :
  forallb sep s = true ->
  sub_plus sep repl s = match s with [] => [] | _ :: _ => repl end.
Proof.
  intro H. unfold sub_plus. destruct s as [|c t]; [reflexivity|].
  cbn [forallb] in H. apply andb_prop in H. destruct H as [Hc Ht].
  cbn [sub_plus_from]. rewrite Hc.
  assert (K : sub_plus_from sep repl true t = []).
  { clear Hc. induction t as [|x t IH]; [reflexivity|].
    cbn [forallb] in Ht. apply andb_prop in Ht. destruct Ht as [Hx Ht].
    cbn [sub_plus_from]. rewrite Hx. exact (IH Ht). }
  rewrite K. apply app_nil_r.
Qed.

Lemma filter_all (p : Z -> bool) (s : pystr) : forallb p (filter p s) = true.
Proof.
  induction s as [|c t IH]; [reflexivity|].
  cbn [filter]. destruct (p c) eqn:E; [|exact IH].
  cbn [forallb]. now rewrite E, IH.
Qed.

Lemma filter_nil_existsb (p : Z -> bool) (s : pystr) :
  existsb p s = match filter p s with [] => false | _ :: _ => true end.
Proof.
  induction s as [|c t IH]; [reflexivity|].
  cbn [existsb filter]. destruct (p c); [reflexivity|exact IH].
Qed.

(** C10 as stated fails: the title "-" has no word character and its
    file name is "_.json", not ".json". *)
Lemma hyphen_title_filename :
  forallb (fun c => negb (is_word c)) (py "-") = true
  /\ policy_filename (py "-") = py "_.json"
  /\ policy_filename (py "-") <> py ".json".
Proof.
  vm_compute. repeat split. discriminate.
Qed.

(** C10 (amended).  For a title without any word character the file
    name is still derived: it is ".json" when the title has neither
    whitespace nor a hyphen, and "_.json" when it has some; the
    document is written under that name in the output directory. *)
Theorem filename_without_word_characters (writable : pystr -> bool)
    (policy : PolicyDocument) (output_dir : pystr) (d : disk) :
  forallb (fun c => negb (is_word c)) (title (metadata policy)) = true ->
  let filename :=
    if existsb is_name_sep (title (metadata policy)) then py "_.json" else py ".json" in
  policy_filename (title (metadata policy)) = filename
  /\ (writable (path_join output_dir filename) = true ->
      save_policy_json writable policy output_dir d
      = Return (path_join output_dir filename,
                (path_join output_dir filename, policy) :: d)).
Proof.
  intro Hno. cbv zeta.
  assert (G : policy_filename (title (metadata policy))
              = if existsb is_name_sep (title (metadata policy))
                then py "_.json" else py ".json").
  { rewrite policy_filename_steps, (filter_without_words _ Hno).
    rewrite (sub_plus_all_separators _ _ _ (filter_all is_name_sep _)).
    rewrite filter_nil_existsb.
    destruct (filter is_name_sep (title (metadata policy))); reflexivity. }
  split; [exact G|].
  intro Hw. unfold save_policy_json. rewrite G, Hw. reflexivity.
Qed.

Lemma filename_without_word_characters_witness :
  policy_filename (py "?!") = py ".json"
  /\ save_policy_json (fun _ => true) punctuation_policy (py "./data/policies") []
     = Return (py "./data/policies/.json",
               [(py "./data/policies/.json", punctuation_policy)]).
Proof.
  destruct (filename_without_word_characters (fun _ => true) punctuation_policy
              (py "./data/policies") []) as [Hname Hsave].
  - vm_compute. reflexivity.
  - split.
    + exact Hname.
    + exact (Hsave eq_refl).
Defined.

(** * Further properties *)

(** ** [clean_text] on text without zero width spaces *)

Lemma sub_plus_from_in (cls : Z -> bool) (repl s : pystr) (c : Z) :
  forall b,
    In c (sub_plus_from cls repl b s) -> (In c s /\ cls c = false) \/ In c repl.
Proof.
  induction s as [|x t IH]; intros b H.
  - destruct H.
  - cbn [sub_plus_from] in H. destruct (cls x) eqn:E.
    + destruct b.
      * destruct (IH _ H) as [[Hin Hc]|Hr]; [left; split; [now right|exact Hc]|now right].
      * apply in_app_or in H. destruct H as [H|H]; [now right|].
        destruct (IH _ H) as [[Hin Hc]|Hr]; [left; split; [now right|exact Hc]|now right].
    + destruct H as [<-|H]; [left; split; [now left|exact E]|].
      destruct (IH _ H) as [[Hin Hc]|Hr]; [left; split; [now right|exact Hc]|now right].
Qed.

Lemma replace1_absent (old : Z) (new s : pystr) :
  ~ In old s -> replace1 old new s = s.
Proof.
  unfold replace1. induction s as [|c t IH]; intro H.
  - reflexivity.
  - cbn [flat_map]. destruct (Z.eqb_spec c old) as [->|Hne].
    + exfalso. apply H. now left.
    + cbn [app]. f_equal. apply IH. intro K. apply H. now right.
Qed.

Lemma strip_decompose (s : pystr) :
  (exists l r, s = l ++ strip s ++ r)
  /\ starts_outside is_space (strip s)
  /\ starts_outside is_space (rev (strip s)).
Proof.
  unfold strip, rstrip, lstrip.
  destruct (takewhile_dropwhile is_space s) as (Hs & _ & Hhead & _).
  destruct (takewhile_dropwhile is_space (rev (dropwhile is_space s)))
    as (Hr & _ & Hlast & _).
  set (x := dropwhile is_space s) in *.
  set (dw := dropwhile is_space (rev x)) in *.
  assert (Hx : x = rev dw ++ rev (takewhile is_space (rev x))).
  { rewrite <- rev_app_distr, <- Hr. symmetry. apply rev_involutive. }
  split; [|split].
  - exists (takewhile is_space s), (rev (takewhile is_space (rev x))).
    rewrite <- Hx. exact Hs.
  - destruct (rev dw) as [|a m] eqn:E; [exact I|].
    rewrite Hx in Hhead. exact Hhead.
  - rewrite rev_involutive. exact Hlast.
Qed.

Lemma double_space_suffix (l m : pystr) :
  double_space (l ++ m) = false -> double_space m = false.
Proof.
  induction l as [|a l IH]; intro H.
  - exact H.
  - apply IH. cbn [app] in H. cbn [double_space] in H.
    destruct (l ++ m) as [|b t]; [reflexivity|].
    apply orb_false_elim in H. exact (proj2 H).
Qed.

Lemma double_space_prefix (m r : pystr) :
  double_space (m ++ r) = false -> double_space m = false.
Proof.
  induction m as [|a m IH]; intro H.
  - reflexivity.
  - cbn [app] in H. cbn [double_space] in *.
    destruct m as [|b m']; [reflexivity|].
    cbn [app] in H. apply orb_false_elim in H. destruct H as [H1 H2].
    rewrite H1. cbn [orb]. apply IH. exact H2.
Qed.

Lemma sub_plus_single_spaced (s : pystr) :
  forall b,
    double_space (sub_plus_from is_space [SPACE] b s) = false
    /\ (b = true -> starts_outside is_space (sub_plus_from is_space [SPACE] b s)).
Proof.
  induction s as [|c t IH]; intro b.
  - split; [reflexivity|intros _; exact I].
  - cbn [sub_plus_from]. destruct (is_space c) eqn:E.
    + destruct (IH true) as [Hd Hh]. specialize (Hh eq_refl).
      destruct b; [split; [exact Hd|intros _; exact Hh]|].
      split; [|discriminate]. cbn [app double_space].
      destruct (sub_plus_from is_space [SPACE] true t) as [|a r]; [reflexivity|].
      cbn [starts_outside] in Hh. rewrite Hh, andb_false_r. exact Hd.
    + destruct (IH false) as [Hd _].
      split; [|intros _; exact E]. cbn [double_space].
      destruct (sub_plus_from is_space [SPACE] false t) as [|a r]; [reflexivity|].
      rewrite E. exact Hd.
Qed.

(** X2.  Empty text and text made of whitespace only are normalised to
    the empty string. *)
Theorem clean_text_of_whitespace (text : pystr) :
  forallb is_space text = true -> clean_text text = [].
Proof.
  intro H. unfold clean_text. destruct text as [|c t]; [reflexivity|].
  cbn [truthy negb].
  rewrite (sub_plus_all_separators is_space [SPACE] (c :: t) H).
  reflexivity.
Qed.

Lemma clean_text_of_whitespace_witness :
  clean_text [SPACE; 9; NBSP; 10; 8195]%Z = [].
Proof.
  apply (clean_text_of_whitespace [SPACE; 9; NBSP; 10; 8195]%Z).
  vm_compute. reflexivity.
Defined.

(** X3.  On a text without zero width space, [clean_text] is the
    collapse of the whitespace runs followed by the trimming, and its
    result is trimmed and single-spaced: no whitespace at either end,
    no two whitespace characters in a row, and the ASCII space as only
    whitespace character. *)
Theorem clean_text_normal_without_zwsp (text : pystr) :
  ~ In ZWSP text ->
  clean_text text = strip (sub_plus is_space [SPACE] text)
  /\ normal_spaced (clean_text text).
Proof.
  intro Hz.
  set (t1 := sub_plus is_space [SPACE] text).
  assert (Hin : forall c, In c (strip t1) -> (In c text /\ is_space c = false) \/ c = SPACE).
  { intros c Hc.
    destruct (strip_decompose t1) as ((l & r & Ht1) & _ & _).
    assert (K : In c t1).
    { rewrite Ht1. apply in_or_app. right. apply in_or_app. now left. }
    destruct (sub_plus_from_in _ _ _ _ _ K) as [?|[<-|[]]]; auto. }
  assert (Heq : clean_text text = strip t1).
  { unfold clean_text. destruct text as [|c0 t0]; [reflexivity|].
    cbn [truthy negb]. fold t1.
    rewrite (replace1_absent NBSP [SPACE] (strip t1)).
    - apply replace1_absent. intro K.
      destruct (Hin _ K) as [[K1 _]|K1]; [exact (Hz K1)|discriminate K1].
    - intro K.
      destruct (Hin _ K) as [[_ K1]|K1]; [discriminate K1|discriminate K1]. }
  split; [exact Heq|]. rewrite Heq.
  destruct (strip_decompose t1) as ((l & r & Ht1) & Hhead & Hlast).
  repeat split; try assumption.
  - destruct (sub_plus_single_spaced text false) as [Hd _].
    fold (sub_plus is_space [SPACE] text) in Hd. fold t1 in Hd.
    rewrite Ht1 in Hd. apply double_space_suffix in Hd.
    exact (double_space_prefix _ _ Hd).
  - intros c Hc Hsp. destruct (Hin _ Hc) as [[_ K]|K]; [congruence|exact K].
Qed.

Lemma clean_text_normal_without_zwsp_witness :
  clean_text (py "  Staff   travel policy ") = py "Staff travel policy"
  /\ normal_spaced (clean_text (py "  Staff   travel policy ")).
Proof.
  destruct (clean_text_normal_without_zwsp (py "  Staff   travel policy ")) as [H1 H2].
  - vm_compute. intro H. repeat (destruct H as [H|H]; [discriminate H|]). exact H.
  - split; [|exact H2]. rewrite H1. vm_compute. reflexivity.
Defined.

(** ** Clauses and subclauses *)

Lemma collect_subclauses_filter (items : list node) :
  forall acc,
    collect_subclauses items acc
    = acc ++ filter (fun s => 20 <=? length s)
               (map (fun sub_li => clean_text (get_text sub_li)) items).
Proof.
  induction items as [|x rest IH]; intro acc; cbn [collect_subclauses map filter].
  - now rewrite app_nil_r.
  - destruct (20 <=? length (clean_text (get_text x))).
    + rewrite IH, <- app_assoc. reflexivity.
    + apply IH.
Qed.

Lemma extract_loop_clauses (items : list node) :
  forall i acc,
    map text (extract_loop i items acc)
    = map text acc
      ++ map (fun li => clean_text (get_text li)) (filter long_enough items)
    /\ map subclauses (extract_loop i items acc)
       = map subclauses acc ++ map subclauses_of (filter long_enough items).
Proof.
  induction items as [|li rest IH]; intros i acc.
  - cbn. now rewrite !app_nil_r.
  - cbn [extract_loop filter]. rewrite long_enough_ltb.
    destruct (long_enough li); cbn [negb].
    + destruct (IH (S i)
                  (acc ++ [{| clause_number := str (i + 1);
                              text := clean_text (get_text li);
                              subclauses :=
                                match find [py "ol"; py "ul"] li with
                                | Some nested_list =>
                                    collect_subclauses (find_all [py "li"] nested_list) []
                                | None => []
                                end |}])) as [Ht Hs].
      rewrite Ht, Hs, !map_app, <- !app_assoc. cbn [map app text subclauses].
      split; [reflexivity|]. do 2 f_equal. unfold subclauses_of.
      destruct (find [py "ol"; py "ul"] li); [|reflexivity].
      apply collect_subclauses_filter.
    + apply IH.
Qed.

(** X4.  The texts of the clauses returned for a list are the
    normalised texts of its direct items that have 20 characters or
    more, in the order of the page; nothing else is returned and no
    such item is lost. *)
Theorem clause_texts_are_long_items (ol_element : node) :
  map text (extract_clauses_from_list ol_element)
  = map (fun li => clean_text (get_text li))
        (filter long_enough (find_all_children [py "li"] ol_element))
  /\ length (extract_clauses_from_list ol_element)
     <= length (find_all_children [py "li"] ol_element).
Proof.
  unfold extract_clauses_from_list.
  destruct (extract_loop_clauses (find_all_children [py "li"] ol_element) 0 []) as [Ht _].
  split; [exact Ht|].
  rewrite <- (length_map text), Ht. cbn [map app]. rewrite length_map.
  apply filter_length_le.
Qed.

(** X5.  The subclauses of each clause are the normalised texts, of
    20 characters or more, of all the list items below the first
    nested list of its item, in page order; an item without a nested
    list has none. *)
Theorem clause_subclauses_from_nested_list (ol_element : node) :
  map subclauses (extract_clauses_from_list ol_element)
  = map subclauses_of (filter long_enough (find_all_children [py "li"] ol_element)).
Proof.
  unfold extract_clauses_from_list.
  destruct (extract_loop_clauses (find_all_children [py "li"] ol_element) 0 []) as [_ Hs].
  exact Hs.
Qed.

Lemma extract_loop_well_sized (items : list node) :
  forall i acc,
    Forall well_sized acc -> Forall well_sized (extract_loop i items acc).
Proof.
  induction items as [|li rest IH]; intros i acc Hacc.
  - exact Hacc.
  - cbn [extract_loop].
    destruct (Nat.ltb_spec (length (clean_text (get_text li))) 20) as [Hlt|Hge].
    + apply IH. exact Hacc.
    + apply IH. apply Forall_app. split; [exact Hacc|].
      constructor; [|constructor]. split; cbn [text subclauses].
      * exact Hge.
      * intros s Hin.
        destruct (find [py "ol"; py "ul"] li); [|destruct Hin].
        rewrite collect_subclauses_filter in Hin. cbn [app] in Hin.
        apply filter_In in Hin. apply Nat.leb_le. exact (proj2 Hin).
Qed.

Lemma walk_siblings_well_sized (heading : node) (siblings : list node) :
  forall acc,
    Forall well_sized acc -> Forall well_sized (walk_siblings heading siblings acc).
Proof.
  induction siblings as [|sibling rest IH]; intros acc Hacc.
  - exact Hacc.
  - cbn [walk_siblings].
    destruct (has_name HEADINGS sibling && negb (node_eqb sibling heading)); [exact Hacc|].
    destruct (has_name [py "ol"] sibling).
    + apply IH. apply Forall_app. split; [exact Hacc|].
      apply extract_loop_well_sized. constructor.
    + destruct (has_name [py "p"] sibling); [|now apply IH].
      destruct (Nat.leb_spec 20 (length (clean_text (get_text sibling)))) as [Hge|Hlt];
        [|now apply IH].
      apply IH. apply Forall_app. split; [exact Hacc|].
      constructor; [|constructor]. split; cbn [text subclauses]; [exact Hge|].
      intros s [].
Qed.

Lemma collect_sections_titles (headings : list (node * list node)) :
  forall acc,
    Forall (fun sec => 3 <= length (section_title sec)) acc ->
    Forall (fun sec => 3 <= length (section_title sec)) (collect_sections headings acc).
Proof.
  induction headings as [|[heading siblings] rest IH]; intros acc Hacc.
  - exact Hacc.
  - cbn [collect_sections].
    destruct (negb (truthy (clean_text (get_text heading)))); cbn [orb]; [now apply IH|].
    destruct (Nat.ltb_spec (length (clean_text (get_text heading))) 3) as [Hlt|Hge];
      [now apply IH|].
    destruct (walk_siblings heading siblings []); [now apply IH|].
    apply IH. apply Forall_app. split; [exact Hacc|].
    constructor; [exact Hge|constructor].
Qed.

(** X6.  In every document returned by the extractor, every section
    has a title of 3 characters or more, and every clause a text of 20
    characters or more and subclauses of 20 characters or more. *)
Theorem document_texts_are_long_enough (get : pystr -> response)
    (today now url : pystr) (doc : PolicyDocument) (part : Part)
    (sec : PolicySection) :
  scrape_policy_document get today now url = Return (Some doc) ->
  In part (structure doc) -> In sec (sections part) ->
  3 <= length (section_title sec) /\ Forall well_sized (clauses sec).
Proof.
  intros Hdoc Hpart Hsec. split.
  - destruct (scrape_returns_built _ _ _ _ _ Hdoc) as (soup & _ & ->).
    rewrite build_policy_structure in Hpart. destruct Hpart as [<-|[]].
    cbn [sections] in Hsec. unfold extract_sections in Hsec.
    destruct (content_area soup) as [area|]; [|destruct Hsec].
    pose proof (collect_sections_titles (headings_with_siblings area) []
                  (Forall_nil _)) as K.
    rewrite Forall_forall in K. exact (K _ Hsec).
  - destruct (document_sections_origin _ _ _ _ _ _ _ Hdoc Hpart Hsec)
      as (soup & area & heading & siblings & _ & _ & _ & _ & Hcl & _).
    rewrite Hcl. apply walk_siblings_well_sized. constructor.
Qed.

Lemma document_texts_are_long_enough_witness :
  3 <= length (section_title scope_section) /\ Forall well_sized (clauses scope_section).
Proof.
  exact (document_texts_are_long_enough sample_get _ _ sample_url sample_doc
           sample_part scope_section
           sample_doc_scraped sample_part_in_doc scope_section_in_part).
Defined.

(** ** The walk over the siblings of a heading *)








Example twin_section_texts :
  map text (walk_siblings twin_heading twin_siblings [])
  = [py "This policy applies to all staff."; py "It also applies to contractors."].
Proof. vm_compute. reflexivity. Qed.

(** ** Dates of a document *)

(** X9.  When no fragment of the page holds an approval keyword
    together with a date, the approval date is the empty string; when
    none holds a review keyword together with a date, the review date
    is the day of the extraction. *)
Theorem dates_default (today now url : pystr) (soup : node) :
  (forallb (fun g => negb (mentions_approval g && has_date g))
           (stripped_strings soup) = true ->
   approval_date (metadata (build_policy today now url soup)) = [])
  /\
  (forallb (fun g => negb (mentions_review g && has_date g))
           (stripped_strings soup) = true ->
   review_date (metadata (build_policy today now url soup)) = today).
Proof.
  destruct (build_policy_dates today now url soup) as [Ha Hr].
  unfold scan_dates in Ha, Hr. split; intro H.
  - rewrite Ha, (scan_keeps_approval _ _ H). reflexivity.
  - rewrite Hr, (scan_keeps_review _ _ H). reflexivity.
Qed.

Lemma dates_default_witness :
  approval_date (metadata (build_policy (py "2024-05-01") [] sample_url undated_page)) = []
  /\ review_date (metadata (build_policy (py "2024-05-01") [] sample_url undated_page))
     = py "2024-05-01".
Proof.
  destruct (dates_default (py "2024-05-01") [] sample_url undated_page) as [Ha Hr].
  split; [apply Ha|apply Hr]; vm_compute; reflexivity.
Defined.

Lemma scan_fragment_reads (fragments : list pystr) (a r f : pystr) :
  In f fragments ->
  (a = [] \/ read_from mentions_approval fragments a) ->
  (r = [] \/ read_from mentions_review fragments r) ->
  (fst (scan_fragment (a, r) f) = []
   \/ read_from mentions_approval fragments (fst (scan_fragment (a, r) f)))
  /\ (snd (scan_fragment (a, r) f) = []
      \/ read_from mentions_review fragments (snd (scan_fragment (a, r) f))).
Proof.
  intros Hf Ha Hr. rewrite scan_fragment_fst, scan_fragment_snd. split.
  - destruct (mentions_approval f) eqn:M; [|exact Ha].
    destruct (search_date f) as [d|] eqn:S; [|exact Ha].
    right. exists f. auto.
  - destruct (mentions_review f) eqn:M; [|exact Hr].
    destruct (search_date f) as [d|] eqn:S; [|exact Hr].
    right. exists f. auto.
Qed.

Lemma scan_reads (fragments : list pystr) :
  forall todo dates,
    (forall f, In f todo -> In f fragments) ->
    (fst dates = [] \/ read_from mentions_approval fragments (fst dates)) ->
    (snd dates = [] \/ read_from mentions_review fragments (snd dates)) ->
    (fst (fold_left scan_fragment todo dates) = []
     \/ read_from mentions_approval fragments (fst (fold_left scan_fragment todo dates)))
    /\ (snd (fold_left scan_fragment todo dates) = []
        \/ read_from mentions_review fragments (snd (fold_left scan_fragment todo dates))).
Proof.
  induction todo as [|f rest IH]; intros [a r] Hsub Ha Hr.
  - split; assumption.
  - cbn [fold_left].
    destruct (scan_fragment_reads fragments a r f (Hsub f (or_introl eq_refl)) Ha Hr)
      as [Ha' Hr'].
    apply IH; [|exact Ha'|exact Hr'].
    intros g Hg. apply Hsub. now right.
Qed.

(** X10.  The approval date of a document is empty or is the date
    read in a fragment of the page that holds an approval keyword; its
    review date is the day of the extraction or the date read in a
    fragment that holds a review keyword.  A date that is read has the
    form of the pattern. *)
Theorem dates_come_from_fragments (today now url : pystr) (soup : node) :
  let m := metadata (build_policy today now url soup) in
  (approval_date m = []
   \/ (read_from mentions_approval (stripped_strings soup) (approval_date m)
       /\ date_form (approval_date m)))
  /\ (review_date m = today
      \/ (read_from mentions_review (stripped_strings soup) (review_date m)
          /\ date_form (review_date m))).
Proof.
  cbv zeta. destruct (build_policy_dates today now url soup) as [Ha Hr].
  rewrite Ha, Hr. unfold scan_dates.
  destruct (scan_reads (stripped_strings soup) (stripped_strings soup) ([], [])
              (fun f H => H) (or_introl eq_refl) (or_introl eq_refl)) as [Ka Kr].
  split.
  - destruct Ka as [Ka|Ka]; [now left|]. right. split; [exact Ka|].
    destruct Ka as (f & _ & _ & S). exact (proj1 (search_date_form _ _ S)).
  - destruct Kr as [Kr|Kr]; [left; now rewrite Kr|].
    assert (F : date_form (snd (fold_left scan_fragment (stripped_strings soup) ([], [])))).
    { destruct Kr as (f & _ & _ & S). exact (proj1 (search_date_form _ _ S)). }
    rewrite (date_form_truthy _ F). right. split; [exact Kr|exact F].
Qed.

Lemma one_or_two_complete (cls : Z -> bool) (k : pystr -> option pystr)
    (ds t r : pystr) :
  1 <= length ds <= 2 -> Forall (fun c => cls c = true) ds -> k t = Some r ->
  exists r', one_or_two cls k (ds ++ t) = Some r'.
Proof.
  intros Hlen Hds Hk. destruct ds as [|a [|b [|c ds]]]; cbn [length] in Hlen; try lia.
  - inversion Hds as [|? ? Ha _]; subst.
    unfold one_or_two. cbn [app one]. rewrite Ha.
    destruct (match one cls t with Some t2 => k t2 | None => None end) as [r2|].
    + exists r2. reflexivity.
    + exists r. cbn [orelse]. exact Hk.
  - inversion Hds as [|? ? Ha Hds']; subst. inversion Hds' as [|? ? Hb _]; subst.
    unfold one_or_two. cbn [app one]. rewrite Ha. cbn [one]. rewrite Hb, Hk.
    exists r. reflexivity.
Qed.

Lemma then_one_complete (cls : Z -> bool) (k : pystr -> option pystr)
    (c : Z) (t r : pystr) :
  cls c = true -> k t = Some r -> then_one cls k (c :: t) = Some r.
Proof.
  intros Hc Hk. unfold then_one. cbn [one]. now rewrite Hc.
Qed.

Lemma is_date_sep_complete (c : Z) : c = HYPHEN \/ c = SLASH -> is_date_sep c = true.
Proof. intros [->| ->]; reflexivity. Qed.

Lemma match_date_here_complete (d rest : pystr) :
  date_form d -> exists r, match_date_here (d ++ rest) = Some r.
Proof.
  intros (day & s1 & month & s2 & year & -> & Hday & Dday & Hs1 & Hmonth & Dmonth
          & Hs2 & Hyear & Dyear).
  destruct year as [|y1 [|y2 [|y3 [|y4 [|y5 year]]]]]; cbn [length] in Hyear; try lia.
  inversion Dyear as [|? ? Hy1 D1]; subst. inversion D1 as [|? ? Hy2 D2]; subst.
  inversion D2 as [|? ? Hy3 D3]; subst. inversion D3 as [|? ? Hy4 _]; subst.
  unfold match_date_here.
  rewrite <- app_assoc. cbn [app]. rewrite <- app_assoc. cbn [app].
  assert (K4 : then_one is_decimal (then_one is_decimal
                 (then_one is_decimal (then_one is_decimal Some)))
                 (y1 :: y2 :: y3 :: y4 :: rest) = Some rest).
  { repeat (apply then_one_complete; [assumption|]). reflexivity. }
  pose proof (then_one_complete is_date_sep _ s2 _ _ (is_date_sep_complete _ Hs2) K4) as K3.
  destruct (one_or_two_complete is_decimal _ month _ _ Hmonth Dmonth K3) as (r2 & K2).
  pose proof (then_one_complete is_date_sep _ s1 _ _ (is_date_sep_complete _ Hs1) K2) as K1.
  exact (one_or_two_complete is_decimal _ day _ _ Hday Dday K1).
Qed.

(** X11.  The search of the date pattern misses no date: a text in
    which a date of the pattern's form occurs has a match, and the
    match found has that form and occurs in the text. *)
Theorem search_date_finds_dates (text d : pystr) :
  date_form d -> occurs_in d text ->
  exists found,
    search_date text = Some found /\ date_form found /\ occurs_in found text.
Proof.
  intros Hform (before & after & ->).
  assert (K : exists found, search_date (before ++ d ++ after) = Some found).
  { induction before as [|c before IH].
    - cbn [app]. destruct (match_date_here_complete d after Hform) as (r & Hr).
      destruct (d ++ after) as [|c t] eqn:E.
      + exfalso. revert Hr. unfold match_date_here, one_or_two. cbn [one]. discriminate.
      + rewrite search_date_cons, Hr. eauto.
    - cbn [app]. rewrite search_date_cons.
      destruct (match_date_here (c :: before ++ d ++ after)); [eauto|exact IH]. }
  destruct K as (found & K). exists found.
  destruct (search_date_form _ _ K) as [F O]. auto.
Qed.

Lemma search_date_finds_dates_witness :
  exists found,
    search_date (py "Reviewed on 7/11/2022.") = Some found /\ date_form found
    /\ occurs_in found (py "Reviewed on 7/11/2022.").
Proof.
  apply (search_date_finds_dates (py "Reviewed on 7/11/2022.") (py "7/11/2022")).
  - exists (py "7"), SLASH, (py "11"), SLASH, (py "2022").
    split; [reflexivity|].
    repeat split; try (now right); try (cbn; lia);
      repeat constructor.
  - exists (py "Reviewed on "), (py "."). reflexivity.
Defined.

(** ** File names and the saved file *)

Lemma in_firstn (n : nat) (s : pystr) (c : Z) : In c (firstn n s) -> In c s.
Proof.
  revert n. induction s as [|x t IH]; intros [|n] H; try destruct H.
  - subst. now left.
  - right. exact (IH _ H).
Qed.

Lemma name_base_is_word (title : pystr) (c : Z) :
  In c (firstn 80 (sub_plus is_name_sep [UNDERSCORE] (filter kept_in_name title))) ->
  is_word c = true.
Proof.
  intro H. apply in_firstn in H.
  destruct (sub_plus_from_in _ _ _ _ _ H) as [[Hin Hsep]|[<-|[]]]; [|reflexivity].
  apply filter_In in Hin. destruct Hin as [_ Hkept].
  unfold kept_in_name in Hkept. unfold is_name_sep in Hsep.
  apply orb_false_elim in Hsep. destruct Hsep as [Hh Hs].
  rewrite Hh, Hs, !orb_false_r in Hkept. exact Hkept.
Qed.

Lemma filename_base (title : pystr) :
  exists base,
    policy_filename title = base ++ py ".json"
    /\ length base <= 80
    /\ (forall c, In c base -> is_word c = true).
Proof.
  exists (firstn 80 (sub_plus is_name_sep [UNDERSCORE] (filter kept_in_name title))).
  split; [apply policy_filename_steps|].
  split; [rewrite length_firstn; apply Nat.le_min_l|].
  intro c. apply name_base_is_word.
Qed.

(** X12.  Every file name is a base of at most 80 characters followed
    by ".json", and the base holds word characters only: letters,
    digits and underscores, hence no whitespace, no hyphen, no dot and
    no path separator. *)
Theorem filename_is_safe (title : pystr) :
  exists base,
    policy_filename title = base ++ py ".json"
    /\ length base <= 80
    /\ Forall (fun c => is_word c = true) base
    /\ ~ In SLASH base /\ ~ In HYPHEN base /\ ~ In SPACE base /\ ~ In 46%Z base.
Proof.
  destruct (filename_base title) as (base & Hname & Hlen & W).
  exists base. split; [exact Hname|]. split; [exact Hlen|].
  split; [apply Forall_forall; exact W|].
  repeat split; intro H; apply W in H; discriminate H.
Qed.




Lemma filename_of_kept_characters (title1 title2 : pystr) :
  filter kept_in_name title1 = filter kept_in_name title2 ->
  policy_filename title1 = policy_filename title2.
Proof.
  intro H. rewrite !policy_filename_steps, H. reflexivity.
Qed.

(** X14.  The file name depends only on the characters of the title
    that are word characters, whitespace or hyphens: two documents
    whose titles differ in other characters only are saved to the same
    path of the same directory, the second over the first. *)
Theorem similar_titles_share_a_file (writable : pystr -> bool)
    (policy1 policy2 : PolicyDocument) (output_dir : pystr) (d d1 d2 : disk)
    (path1 path2 : pystr) :
  filter kept_in_name (title (metadata policy1))
  = filter kept_in_name (title (metadata policy2)) ->
  save_policy_json writable policy1 output_dir d = Return (path1, d1) ->
  save_policy_json writable policy2 output_dir d1 = Return (path2, d2) ->
  path1 = path2 /\ d2 = (path1, policy2) :: (path1, policy1) :: d.
Proof.
  intros Ht. unfold save_policy_json.
  rewrite (filename_of_kept_characters _ _ Ht).
  destruct (writable (path_join output_dir (policy_filename (title (metadata policy2)))));
    [|discriminate].
  intros [= <- <-] [= <- <-]. split; reflexivity.
Qed.

Lemma similar_titles_share_a_file_witness :
  py "out/Leave_Staff_Policy.json" = py "out/Leave_Staff_Policy.json"
  /\ [(py "out/Leave_Staff_Policy.json", titled "Leave Staff Policy");
      (py "out/Leave_Staff_Policy.json", titled "Leave (Staff) Policy?")]
     = [(py "out/Leave_Staff_Policy.json", titled "Leave Staff Policy");
        (py "out/Leave_Staff_Policy.json", titled "Leave (Staff) Policy?")].
Proof.
  apply (similar_titles_share_a_file (fun _ => true)
           (titled "Leave (Staff) Policy?") (titled "Leave Staff Policy")
           (py "out") [] [(py "out/Leave_Staff_Policy.json", titled "Leave (Staff) Policy?")]
           [(py "out/Leave_Staff_Policy.json", titled "Leave Staff Policy");
            (py "out/Leave_Staff_Policy.json", titled "Leave (Staff) Policy?")]
           (py "out/Leave_Staff_Policy.json") (py "out/Leave_Staff_Policy.json"));
    vm_compute; reflexivity.
Defined.

(** ** Runs of the driver *)

Lemma run_attempts (get : pystr -> response) (today now : pystr)
    (writable : pystr -> bool) (policy_links : list pystr) (output_dir : pystr)
    (max_policies : option Z) (d : disk) :
  policy_links <> [] ->
  attempted (snd (scrape_all_policies get today now writable policy_links
                    output_dir max_policies d))
  = limit_links policy_links max_policies
  /\ total (fst (scrape_all_policies get today now writable policy_links
                   output_dir max_policies d))
     = length (limit_links policy_links max_policies).
Proof.
  intro Hne. destruct policy_links as [|u rest]; [congruence|].
  unfold scrape_all_policies. cbn [fst snd total].
  destruct (scrape_loop_counts get today now writable output_dir
              (limit_links (u :: rest) max_policies) (start d)) as [Ha _].
  cbv zeta in Ha. split; [exact Ha|reflexivity].
Qed.

(** X15.  With a maximum of N >= 1, the links attempted are the first
    N of the discovered list (all of them when there are fewer), in
    order, and the total reported is min(N, number of links). *)
Theorem positive_maximum_truncates (get : pystr -> response) (today now : pystr)
    (writable : pystr -> bool) (policy_links : list pystr) (output_dir : pystr)
    (n : Z) (d : disk) :
  policy_links <> [] -> (0 < n)%Z ->
  let result :=
    scrape_all_policies get today now writable policy_links output_dir (Some n) d in
  attempted (snd result) = firstn (Z.to_nat n) policy_links
  /\ total (fst result) = Nat.min (Z.to_nat n) (length policy_links).
Proof.
  intros Hne Hn. cbv zeta.
  destruct (run_attempts get today now writable policy_links output_dir (Some n) d Hne)
    as [Ha Ht].
  destruct (limit_links_positive policy_links n Hn) as [Hl Hlen].
  rewrite Ha, Ht, Hlen, Hl. split; reflexivity.
Qed.

Lemma positive_maximum_truncates_witness :
  let result :=
    scrape_all_policies failing_get [] [] (fun _ => true)
      [py "a"; py "b"; py "c"] (py "out") (Some 2%Z) [] in
  attempted (snd result) = firstn (Z.to_nat 2) [py "a"; py "b"; py "c"]
  /\ total (fst result) = Nat.min (Z.to_nat 2) (length [py "a"; py "b"; py "c"]).
Proof.
  apply (positive_maximum_truncates failing_get [] [] (fun _ => true)
           [py "a"; py "b"; py "c"] (py "out") 2%Z []).
  - discriminate.
  - reflexivity.
Defined.

(** X16.  A negative maximum -k is a slice from the end: the last k
    links are left out, and nothing is attempted when there are k
    links or fewer. *)
Theorem negative_maximum_drops_last (get : pystr -> response) (today now : pystr)
    (writable : pystr -> bool) (policy_links : list pystr) (output_dir : pystr)
    (n : Z) (d : disk) :
  policy_links <> [] -> (n < 0)%Z ->
  let result :=
    scrape_all_policies get today now writable policy_links output_dir (Some n) d in
  attempted (snd result)
  = firstn (length policy_links - Z.to_nat (- n)) policy_links
  /\ total (fst result) = length policy_links - Z.to_nat (- n)
  /\ success (fst result) + failed (fst result) = length policy_links - Z.to_nat (- n).
Proof.
  intros Hne Hn. cbv zeta.
  destruct (run_attempts get today now writable policy_links output_dir (Some n) d Hne)
    as [Ha Ht].
  assert (Hl : limit_links policy_links (Some n)
               = firstn (length policy_links - Z.to_nat (- n)) policy_links).
  { unfold limit_links, max_is_set, slice_to.
    destruct (Z.eqb_spec n 0); [lia|]. cbn [negb].
    destruct (Z.leb_spec 0 n); [lia|reflexivity]. }
  rewrite Ha, Ht, Hl, length_firstn.
  assert (Hmin : Nat.min (length policy_links - Z.to_nat (- n)) (length policy_links)
                 = length policy_links - Z.to_nat (- n)) by lia.
  rewrite Hmin. repeat split.
  destruct policy_links as [|u rest]; [congruence|].
  unfold scrape_all_policies. cbn [fst success failed].
  destruct (scrape_loop_counts get today now writable output_dir
              (limit_links (u :: rest) (Some n)) (start d)) as [_ Hc].
  cbv zeta in Hc. cbn [start success_count failed_count] in Hc.
  rewrite Hc, Hl, length_firstn. lia.
Qed.

Lemma negative_maximum_drops_last_witness :
  let result :=
    scrape_all_policies failing_get [] [] (fun _ => true)
      [py "a"; py "b"; py "c"] (py "out") (Some (-1)%Z) [] in
  attempted (snd result)
  = firstn (length [py "a"; py "b"; py "c"] - Z.to_nat (- (-1))) [py "a"; py "b"; py "c"]
  /\ total (fst result) = length [py "a"; py "b"; py "c"] - Z.to_nat (- (-1))
  /\ success (fst result) + failed (fst result)
     = length [py "a"; py "b"; py "c"] - Z.to_nat (- (-1)).
Proof.
  apply (negative_maximum_drops_last failing_get [] [] (fun _ => true)
           [py "a"; py "b"; py "c"] (py "out") (-1)%Z []).
  - discriminate.
  - reflexivity.
Defined.

(** X17.  Without a maximum, every discovered link is attempted once,
    in the order of the list, and the total is the number of links. *)
Theorem no_maximum_attempts_all (get : pystr -> response) (today now : pystr)
    (writable : pystr -> bool) (policy_links : list pystr) (output_dir : pystr)
    (d : disk) :
  let result :=
    scrape_all_policies get today now writable policy_links output_dir None d in
  attempted (snd result) = policy_links
  /\ total (fst result) = length policy_links.
Proof.
  cbv zeta. destruct policy_links as [|u rest].
  - split; reflexivity.
  - apply (run_attempts get today now writable (u :: rest) output_dir None d).
    discriminate.
Qed.




Lemma limit_links_incl (policy_links : list pystr) (max_policies : option Z) (u : pystr) :
  In u (limit_links policy_links max_policies) -> In u policy_links.
Proof.
  assert (K : forall n, In u (firstn n policy_links) -> In u policy_links).
  { intro n. revert policy_links. induction n as [|n IH]; intros [|x l] H;
      try destruct H.
    - now left.
    - right. exact (IH _ H). }
  unfold limit_links, slice_to. destruct max_policies as [n|]; [|auto].
  destruct (max_is_set (Some n)); [|auto].
  destruct (0 <=? n)%Z; apply K.
Qed.


Lemma scrape_loop_all_fail (get : pystr -> response) (today now : pystr)
    (writable : pystr -> bool) (output_dir : pystr) (todo : list pystr) :
  forall r,
    forallb (fun u => negb (is_page (get u))) todo = true ->
    let r' := fold_left (scrape_one get today now writable output_dir) todo r in
    success_count r' = success_count r
    /\ failed_count r' = failed_count r + length todo
    /\ files r' = files r.
Proof.
  induction todo as [|url rest IH]; intros r H; cbn [fold_left length].
  - repeat split. lia.
  - cbn [forallb] in H. apply andb_prop in H. destruct H as [Hu Hrest].
    destruct (IH (scrape_one get today now writable output_dir r url) Hrest)
      as (Hs & Hf & Hd). cbv zeta in *. rewrite Hs, Hf, Hd.
    unfold scrape_one, scrape_policy_document.
    destruct (get url); [| |discriminate Hu];
      cbn [failed_one success_count failed_count files]; repeat split; lia.
Qed.

(** X19.  When no link of the run answers with a page (request errors
    or exceptions only), nothing is written, no success is counted,
    and every link attempted is counted as failed. *)
Theorem run_without_pages_fails (get : pystr -> response) (today now : pystr)
    (writable : pystr -> bool) (policy_links : list pystr) (output_dir : pystr)
    (max_policies : option Z) (d : disk) :
  forallb (fun u => negb (is_page (get u))) policy_links = true ->
  let result :=
    scrape_all_policies get today now writable policy_links output_dir max_policies d in
  success (fst result) = 0
  /\ failed (fst result) = total (fst result)
  /\ files (snd result) = d.
Proof.
  intro H. cbv zeta. destruct policy_links as [|u rest].
  - repeat split.
  - unfold scrape_all_policies. cbn [fst snd success failed total].
    assert (K : forallb (fun u => negb (is_page (get u)))
                  (limit_links (u :: rest) max_policies) = true).
    { apply forallb_forall. intros x Hx. apply limit_links_incl in Hx.
      rewrite forallb_forall in H. exact (H x Hx). }
    destruct (scrape_loop_all_fail get today now writable output_dir
                (limit_links (u :: rest) max_policies) (start d) K) as (Hs & Hf & Hd).
    cbv zeta in *. cbn [start success_count failed_count files] in Hs, Hf, Hd.
    rewrite Hs, Hf, Hd. repeat split.
Qed.

Lemma run_without_pages_fails_witness :
  let result :=
    scrape_all_policies failing_get [] [] (fun _ => true)
      [py "b"; py "c"; py "b"] (py "out") None [] in
  success (fst result) = 0
  /\ failed (fst result) = total (fst result)
  /\ files (snd result) = [].
Proof.
  apply (run_without_pages_fails failing_get [] [] (fun _ => true)
           [py "b"; py "c"; py "b"] (py "out") None []).
  vm_compute. reflexivity.
Defined.

(** ** Pages without section headings *)

Lemma node_induction (P : node -> Prop) :
  (forall s, P (NavigableString s)) ->
  (forall name attrs cs, Forall P cs -> P (Tag name attrs cs)) ->
  forall n, P n.
Proof.
  intros Hs Ht. fix IH 1. intros [s|name attrs cs].
  - apply Hs.
  - apply Ht. induction cs as [|c cs IHcs]; constructor; [apply IH|exact IHcs].
Qed.

(** The headings paired with their siblings are the result of
    [find_all(['h2', 'h3'])], in the same order. *)
Lemma headings_are_found (area : node) :
  map fst (headings_with_siblings area) = find_all HEADINGS area.
Proof.
  unfold find_all. induction area as [s|name attrs cs IH] using node_induction.
  - reflexivity.
  - cbn [headings_with_siblings descendants].
    induction IH as [|c rest Hc _ IHrest].
    + reflexivity.
    + cbn [flat_map]. rewrite !map_app, Hc, IHrest.
      cbn [app filter]. rewrite filter_app.
      destruct (has_name HEADINGS c); reflexivity.
Qed.

(** X20.  A page whose content area holds no h2 or h3 gives a document
    with an empty list of sections, and the driver counts its link as
    failed and writes nothing for it. *)
Theorem page_without_headings_fails (get : pystr -> response) (today now : pystr)
    (writable : pystr -> bool) (output_dir : pystr) (r : run) (url : pystr)
    (soup : node) :
  get url = Page soup ->
  (forall area, content_area soup = Some area -> find_all HEADINGS area = []) ->
  scrape_policy_document get today now url
  = Return (Some (build_policy today now url soup))
  /\ structure (build_policy today now url soup)
     = [{| part_title := py "Main Content"; sections := [] |}]
  /\ scrape_one get today now writable output_dir r url = failed_one r url.
Proof.
  intros Hget Hnone.
  assert (Hsec : extract_sections soup = []).
  { unfold extract_sections. destruct (content_area soup) as [area|] eqn:Ha; [|reflexivity].
    specialize (Hnone area eq_refl). rewrite <- headings_are_found in Hnone.
    apply map_eq_nil in Hnone. rewrite Hnone. reflexivity. }
  assert (Hst : structure (build_policy today now url soup)
                = [{| part_title := py "Main Content"; sections := [] |}]).
  { rewrite build_policy_structure, Hsec. reflexivity. }
  split; [|split; [exact Hst|]].
  - unfold scrape_policy_document. rewrite Hget. reflexivity.
  - unfold scrape_one, scrape_policy_document. rewrite Hget, Hst. reflexivity.
Qed.

Lemma page_without_headings_fails_witness :
  scrape_policy_document (fun _ => Page flat_page) [] [] sample_url
  = Return (Some (build_policy [] [] sample_url flat_page))
  /\ structure (build_policy [] [] sample_url flat_page)
     = [{| part_title := py "Main Content"; sections := [] |}]
  /\ scrape_one (fun _ => Page flat_page) [] [] (fun _ => true) (py "out")
       (start []) sample_url
     = failed_one (start []) sample_url.
Proof.
  apply (page_without_headings_fails (fun _ => Page flat_page) [] [] (fun _ => true)
           (py "out") (start []) sample_url flat_page).
  - reflexivity.
  - intros area Harea. vm_compute in Harea. injection Harea as <-.
    vm_compute. reflexivity.
Defined.

(** ** Link discovery *)

Lemma collect_links_sound (anchors : list node) :
  forall acc links,
    collect_links anchors acc = Return links ->
    forall u, In u links <-> In u acc \/ comes_from anchors u.
Proof.
  induction anchors as [|a rest IH]; intros acc links H u.
  - cbn [collect_links] in H. injection H as <-. split; [auto|].
    intros [K|(a & h & [] & _)]. exact K.
  - assert (Skip : collect_links rest acc = Return links ->
                   (forall h, href_of a = Some h -> is_policy_href h = false) ->
                   In u links <-> In u acc \/ comes_from (a :: rest) u).
    { intros Hc Hno. rewrite (IH _ _ Hc u). split.
      - intros [K|(a' & h & Hin & Hh & Hp & Hu)]; [now left|].
        right. exists a', h. repeat split; auto. now right.
      - intros [K|(a' & h & [<-|Hin] & Hh & Hp & Hu)]; [now left| |].
        + rewrite (Hno _ Hh) in Hp. discriminate Hp.
        + right. exists a', h. auto. }
    cbn [collect_links] in H. destruct a as [s|name attrs cs]; [discriminate H|].
    destruct (get_attr (py "href") attrs) as [[href|l]|] eqn:Hattr; [| |discriminate H].
    + destruct (is_policy_href href) eqn:Hp.
      * rewrite (IH _ _ H u). split.
        -- intros [K|(a' & h & Hin & Hh & Hp' & Hu)].
           ++ apply in_app_or in K. destruct K as [K|[<-|[]]]; [now left|].
              right. exists (Tag name attrs cs), href. cbn [href_of]. rewrite Hattr.
              repeat split; auto. now left.
           ++ right. exists a', h. repeat split; auto. now right.
        -- intros [K|(a' & h & [<-|Hin] & Hh & Hp' & Hu)].
           ++ left. apply in_or_app. now left.
           ++ cbn [href_of] in Hh. rewrite Hattr in Hh. injection Hh as <-.
              left. apply in_or_app. right. left. now symmetry.
           ++ right. exists a', h. auto.
      * apply Skip; [exact H|].
        intros h Hh. cbn [href_of] in Hh. rewrite Hattr in Hh. injection Hh as <-.
        exact Hp.
    + destruct (existsb (pystr_eqb (py "document/view")) l
                || existsb (pystr_eqb (py "view.php")) l); [discriminate H|].
      apply Skip; [exact H|].
      intros h Hh. cbn [href_of] in Hh. rewrite Hattr in Hh. discriminate Hh.
Qed.

Lemma collect_links_total (anchors : list node) :
  forall acc,
    (forall a, In a anchors -> exists h, href_of a = Some h) ->
    exists links, collect_links anchors acc = Return links.
Proof.
  induction anchors as [|a rest IH]; intros acc H.
  - exists acc. reflexivity.
  - destruct (H a (or_introl eq_refl)) as (h & Hh).
    destruct a as [s|name attrs cs]; [discriminate Hh|].
    cbn [href_of] in Hh. cbn [collect_links].
    destruct (get_attr (py "href") attrs) as [[href|l]|]; try discriminate Hh.
    destruct (is_policy_href href); apply IH; intros a' Ha'; apply H; now right.
Qed.

(** X21.  When the listing page is fetched and every anchor carries
    its [href] as a string, link discovery returns a list without
    duplicates that holds exactly the absolute forms of the [href]s
    containing "document/view" or "view.php". *)
Theorem discovered_links (get : pystr -> response)
    (list_of_set : list pystr -> list pystr) (soup : node) :
  lists_a_set list_of_set ->
  get BROWSE_URL = Page soup ->
  (forall a, In a (anchors_with_href soup) -> exists h, href_of a = Some h) ->
  exists links,
    get_all_policy_links get list_of_set = Return links
    /\ NoDup links
    /\ (forall u, In u links <-> comes_from (anchors_with_href soup) u).
Proof.
  intros Hset Hget Hstr. unfold get_all_policy_links. rewrite Hget.
  destruct (collect_links_total (anchors_with_href soup) [] Hstr) as (collected & Hc).
  rewrite Hc. exists (list_of_set collected).
  destruct (Hset collected) as [Hnd Hin].
  split; [reflexivity|]. split; [exact Hnd|].
  intro u. rewrite Hin, (collect_links_sound _ _ _ Hc u).
  split; [intros [[]|K]; exact K|auto].
Qed.

Lemma first_seen_lists_a_set : lists_a_set first_seen.
Proof.
  intro l. unfold first_seen. split.
  - apply NoDup_nodup.
  - intro u. apply nodup_In.
Qed.

Lemma browse_page_hrefs (a : node) :
  In a (anchors_with_href browse_page) -> exists h, href_of a = Some h.
Proof.
  intro H. vm_compute in H.
  repeat (destruct H as [<-|H]; [eexists; reflexivity|]). destruct H.
Qed.

Lemma discovered_links_witness :
  exists links,
    get_all_policy_links browse_get first_seen = Return links
    /\ NoDup links
    /\ (forall u, In u links <-> comes_from (anchors_with_href browse_page) u).
Proof.
  exact (discovered_links browse_get first_seen browse_page
           first_seen_lists_a_set eq_refl browse_page_hrefs).
Defined.

Example browse_page_links :
  get_all_policy_links browse_get first_seen
  = Return [py "https://policies.rmit.edu.au/document/view/123";
            py "https://policies.rmit.edu.au/view.php?id=7"].
Proof. vm_compute. reflexivity. Qed.

Lemma contains_app_l (a s needle : pystr) :
  contains s needle = true -> contains (a ++ s) needle = true.
Proof.
  intro H. induction a as [|x a IH].
  - exact H.
  - cbn [app contains]. rewrite IH. apply orb_true_r.
Qed.

Lemma absolute_url_kind (href : pystr) :
  is_policy_href href = true ->
  startswith (absolute_url href) (py "http") = true
  /\ is_policy_href (absolute_url href) = true.
Proof.
  intro Hp. unfold absolute_url.
  destruct (startswith href (py "http")) eqn:E; [auto|].
  assert (K : forall pre, is_policy_href (pre ++ href) = true).
  { intro pre. unfold is_policy_href in *. apply orb_prop in Hp.
    destruct Hp as [Hp|Hp]; rewrite (contains_app_l pre _ _ Hp);
      [reflexivity|apply orb_true_r]. }
  destruct (startswith href (py "/")).
  - split; [reflexivity|apply K].
  - split; [reflexivity|]. rewrite app_assoc. apply K.
Qed.

(** X22.  Every link returned by the discovery is absolute, it starts
    with "http", and still contains "document/view" or "view.php". *)
Theorem discovered_links_are_absolute (get : pystr -> response)
    (list_of_set : list pystr -> list pystr) (links : list pystr) (u : pystr) :
  lists_a_set list_of_set ->
  get_all_policy_links get list_of_set = Return links ->
  In u links ->
  startswith u (py "http") = true /\ is_policy_href u = true.
Proof.
  intros Hset Hret Hu. unfold get_all_policy_links in Hret.
  destruct (get BROWSE_URL) as [| |soup].
  - injection Hret as <-. destruct Hu.
  - discriminate Hret.
  - destruct (collect_links (anchors_with_href soup) []) as [collected|] eqn:Hc;
      [|discriminate Hret].
    injection Hret as <-. apply (proj2 (Hset collected)) in Hu.
    apply (collect_links_sound _ _ _ Hc) in Hu.
    destruct Hu as [[]|(a & h & _ & _ & Hp & ->)].
    exact (absolute_url_kind h Hp).
Qed.

Lemma discovered_links_are_absolute_witness :
  startswith (py "https://policies.rmit.edu.au/view.php?id=7") (py "http") = true
  /\ is_policy_href (py "https://policies.rmit.edu.au/view.php?id=7") = true.
Proof.
  apply (discovered_links_are_absolute browse_get first_seen
           [py "https://policies.rmit.edu.au/document/view/123";
            py "https://policies.rmit.edu.au/view.php?id=7"]
           (py "https://policies.rmit.edu.au/view.php?id=7")
           first_seen_lists_a_set).
  - vm_compute. reflexivity.
  - right. left. reflexivity.
Defined.

(** X23.  When the request for the listing page fails, the discovery
    returns no link and the run ends at once: the summary is
    (0, 0, 0), no document is requested and the disk is untouched. *)
Theorem failed_listing_ends_run (get : pystr -> response) (today now : pystr)
    (writable : pystr -> bool) (list_of_set : list pystr -> list pystr)
    (output_dir : pystr) (max_policies : option Z) (d : disk) :
  get BROWSE_URL = RequestException ->
  get_all_policy_links get list_of_set = Return []
  /\ run_scraper get today now writable list_of_set output_dir max_policies d
     = Return ({| success := 0; failed := 0; total := 0 |},
               {| success_count := 0; failed_count := 0; attempted := []; files := d |}).
Proof.
  intro H. unfold run_scraper, get_all_policy_links. rewrite H. split; reflexivity.
Qed.

Lemma failed_listing_ends_run_witness :
  get_all_policy_links (fun _ => RequestException) first_seen = Return []
  /\ run_scraper (fun _ => RequestException) [] [] (fun _ => true) first_seen
       (py "out") (Some 3%Z) []
     = Return ({| success := 0; failed := 0; total := 0 |},
               {| success_count := 0; failed_count := 0; attempted := []; files := [] |}).
Proof.
  apply (failed_listing_ends_run (fun _ => RequestException) [] [] (fun _ => true)
           first_seen (py "out") (Some 3%Z) []).
  reflexivity.
Defined.

Lemma NoDup_firstn (l : list pystr) : forall n, NoDup l -> NoDup (firstn n l).
Proof.
  induction l as [|x l IH]; intros [|n] H; cbn [firstn]; try constructor.
  - inversion H as [|? ? Hx Hl]; subst. intro K. apply Hx.
    clear -K. revert n K. induction l as [|y l IHl]; intros [|n] K; try destruct K.
    + now left.
    + right. exact (IHl _ H).
  - inversion H; subst. now apply IH.
Qed.

(** X24.  In a whole run no URL is requested twice: the documents
    attempted are discovered links, each at most once. *)
Theorem run_attempts_each_link_once (get : pystr -> response) (today now : pystr)
    (writable : pystr -> bool) (list_of_set : list pystr -> list pystr)
    (output_dir : pystr) (max_policies : option Z) (d : disk)
    (result : summary * run) :
  lists_a_set list_of_set ->
  run_scraper get today now writable list_of_set output_dir max_policies d
  = Return result ->
  NoDup (attempted (snd result))
  /\ exists links,
       get_all_policy_links get list_of_set = Return links
       /\ (forall u, In u (attempted (snd result)) -> In u links).
Proof.
  intros Hset Hrun. unfold run_scraper in Hrun.
  destruct (get_all_policy_links get list_of_set) as [links|] eqn:Hl; [|discriminate Hrun].
  injection Hrun as <-.
  assert (Hnd : NoDup links).
  { unfold get_all_policy_links in Hl. destruct (get BROWSE_URL) as [| |soup].
    - injection Hl as <-. constructor.
    - discriminate Hl.
    - destruct (collect_links (anchors_with_href soup) []) as [collected|];
        [|discriminate Hl].
      injection Hl as <-. exact (proj1 (Hset collected)). }
  destruct links as [|u rest].
  - split; [constructor|]. exists []. split; [reflexivity|]. intros u [].
  - destruct (run_attempts get today now writable (u :: rest) output_dir max_policies d)
      as [Ha _]; [discriminate|].
    rewrite Ha. split.
    + unfold limit_links, slice_to. destruct max_policies as [n|]; [|exact Hnd].
      destruct (max_is_set (Some n)); [|exact Hnd].
      destruct (0 <=? n)%Z; apply NoDup_firstn; exact Hnd.
    + exists (u :: rest). split; [reflexivity|].
      intros x. apply limit_links_incl.
Qed.

Lemma run_attempts_each_link_once_witness :
  NoDup (attempted (snd (scrape_all_policies browse_get [] [] (fun _ => true)
                           [py "https://policies.rmit.edu.au/document/view/123";
                            py "https://policies.rmit.edu.au/view.php?id=7"]
                           (py "out") None [])))
  /\ exists links,
       get_all_policy_links browse_get first_seen = Return links
       /\ (forall u,
             In u (attempted (snd (scrape_all_policies browse_get [] [] (fun _ => true)
                                     [py "https://policies.rmit.edu.au/document/view/123";
                                      py "https://policies.rmit.edu.au/view.php?id=7"]
                                     (py "out") None []))) ->
             In u links).
Proof.
  apply (run_attempts_each_link_once browse_get [] [] (fun _ => true) first_seen
           (py "out") None []
           (scrape_all_policies browse_get [] [] (fun _ => true)
              [py "https://policies.rmit.edu.au/document/view/123";
               py "https://policies.rmit.edu.au/view.php?id=7"]
              (py "out") None [])).
  - exact first_seen_lists_a_set.
  - vm_compute. reflexivity.
Defined.
